(** * Map-reduce summarizer: the batching, map, reduce and file entry points
    of [summarizer_service.py], embedded as Rocq functions.

    A Python [str] is a [string] holding its UTF-8 encoding, Python [int]s
    are [Z], Python lists are [list].  [print] calls write to standard output only
    and are left out.  A raised Python exception is a value of [exn]; code
    that can raise returns a [result]. *)

From Stdlib Require Import ZArith Lia Ascii String.
From stdpp Require Import base list strings pretty sorting gmap.

Local Open Scope string_scope.
Local Open Scope Z_scope.

(** ** Python exceptions and results *)

(** The classes of exception the code names or that its operations raise.
    Every one of them is a subclass of Python's [Exception]. *)
Inductive exn_class : Type :=
  | FileNotFoundError
  | PermissionError
  | JSONDecodeError
  | AttributeError
  | TypeError
  | ValueError
  | OtherException (name : string).

(** An exception object: its class and the text [str(e)] gives. *)
Record exn : Type := Exn { exn_cls : exn_class; exn_str : string }.

Inductive result (A : Type) : Type :=
  | Return (a : A)
  | Raise (e : exn).
Arguments Return {A} a.
Arguments Raise {A} e.

(** ** Strings *)

Definition nl : string := String "010"%char EmptyString.
Definition dquote : string := String "034"%char EmptyString.

(** [sep.join(parts)]. *)
Fixpoint join (sep : string) (parts : list string) : string :=
  match parts with
  | [] => EmptyString
  | [p] => p
  | p :: rest => p +:+ sep +:+ join sep rest
  end.

(** The separator between the chunks of one batch (line 30). *)
Definition chunk_separator : string :=
  nl +:+ nl +:+ "--- (New Chunk in Batch) ---" +:+ nl +:+ nl.

(** The separator between batch summaries (line 88). *)
Definition summary_separator : string :=
  nl +:+ nl +:+ "---" +:+ nl +:+ nl.

(** ** Batcher *)

(** [range(start, stop, step)] for [step > 0]: at most [fuel] indices. *)
Fixpoint range_up (fuel : nat) (start stop step : nat) : list nat :=
  match fuel with
  | O => []
  | S fuel' =>
      if (start <? stop)%nat
      then start :: range_up fuel' (start + step) stop step
      else []
  end.

(** [range(0, stop, step)] with [stop = len(...) >= 0]: a zero step raises
    ValueError, a negative step gives the empty range (0 is not above
    [stop]), a positive step counts up; [stop] iterations are always
    enough because each one advances by at least 1. *)
Definition py_range0 (stop : nat) (step : Z) : result (list nat) :=
  if step =? 0 then
    Raise (Exn ValueError "range() arg 3 must not be zero")
  else if step <? 0 then
    Return []
  else
    Return (range_up stop 0 stop (Z.to_nat step)).

(** [xs[i:i + n]] for [0 <= i] and [0 < n]: the slice stops at the end of
    the list. *)
Definition slice {A : Type} (xs : list A) (i n : nat) : list A :=
  take n (drop i xs).

(** The groups of chunks [group_chunks] joins, one per loop iteration
    (line 29). *)
Definition chunk_groups (chunks_content : list string) (batch_size : Z)
  : result (list (list string)) :=
  match py_range0 (length chunks_content) batch_size with
  | Raise e => Raise e
  | Return starts =>
      Return (map (fun i => slice chunks_content i (Z.to_nat batch_size)) starts)
  end.

(** [group_chunks(chunks_content, batch_size)] (lines 15-32). *)
Definition group_chunks (chunks_content : list string) (batch_size : Z)
  : result (list string) :=
  match chunk_groups chunks_content batch_size with
  | Raise e => Raise e
  | Return groups => Return (map (join chunk_separator) groups)
  end.

(** The default [batch_size] of the signature, also passed at line 77. *)
Definition default_batch_size : Z := 7.

(** ** The generative backend and the calls made to it *)

(** What a backend call returns: the object whose [.text] property either
    gives the completion or raises (an empty or blocked response). *)
Record response : Type := Response { text : result string }.

(** The two capabilities of [genai.GenerativeModel] the code uses.  The
    backend is opaque: each call returns a response or raises. *)
Record backend : Type := Backend {
  generate_content_async : string -> result response;
  generate_content : string -> result response
}.

(** One backend invocation, with the prompt it was given. *)
Inductive call : Type :=
  | AsyncCall (prompt : string)
  | SyncCall (prompt : string).

(** A computation that may raise and that records its backend calls. *)
Definition M (A : Type) : Type := (result A * list call)%type.

Definition ret {A : Type} (a : A) : M A := (Return a, []).

Definition raise {A : Type} (e : exn) : M A := (Raise e, []).

Definition bind {A B : Type} (m : M A) (k : A -> M B) : M B :=
  match m with
  | (Return a, t) => let '(r, t') := k a in (r, (t ++ t')%list)
  | (Raise e, t) => (Raise e, t)
  end.

Notation "x <- m ;; k" := (bind m (fun x => k))
  (at level 100, m at next level, right associativity).

(** A pure step that may raise. *)
Definition lift {A : Type} (r : result A) : M A := (r, []).

(** [try: body except Exception as e: handler(e)].  Every exception of the
    model is an [Exception], so the handler takes them all; the calls made
    before the raise stay made. *)
Definition try_except {A : Type} (body : M A) (handler : exn -> M A) : M A :=
  match body with
  | (Return a, t) => (Return a, t)
  | (Raise e, t) => let '(r, t') := handler e in (r, (t ++ t')%list)
  end.

Definition value {A : Type} (m : M A) : result A := fst m.
Definition calls {A : Type} (m : M A) : list call := snd m.

Definition await_generate_content_async (B : backend) (prompt : string)
  : M response :=
  (generate_content_async B prompt, [AsyncCall prompt]).

Definition call_generate_content (B : backend) (prompt : string)
  : M response :=
  (generate_content B prompt, [SyncCall prompt]).

(** ** [str.strip()] *)

(** A [string] holds the UTF-8 encoding of the text.  [str.strip()] removes
    the characters for which [c.isspace()] holds: U+0009-000D, U+001C-0020,
    U+0085, U+00A0, U+1680, U+2000-200A, U+2028, U+2029, U+202F, U+205F and
    U+3000.  Their encodings take one, two or three bytes. *)
Definition space1 (c1 : ascii) : bool :=
  let n1 := nat_of_ascii c1 in
  ((9 <=? n1) && (n1 <=? 13) || (28 <=? n1) && (n1 <=? 32))%nat.

Definition space2 (c1 c2 : ascii) : bool :=
  let n1 := nat_of_ascii c1 in
  let n2 := nat_of_ascii c2 in
  ((n1 =? 194) && ((n2 =? 133) || (n2 =? 160)))%nat.

Definition space3 (c1 c2 c3 : ascii) : bool :=
  let n1 := nat_of_ascii c1 in
  let n2 := nat_of_ascii c2 in
  let n3 := nat_of_ascii c3 in
  ((n1 =? 225) && (n2 =? 154) && (n3 =? 128)
   || (n1 =? 226) && (n2 =? 128)
      && ((128 <=? n3) && (n3 <=? 138)
          || (n3 =? 168) || (n3 =? 169) || (n3 =? 175))
   || (n1 =? 226) && (n2 =? 129) && (n3 =? 159)
   || (n1 =? 227) && (n2 =? 128) && (n3 =? 128))%nat.

(** What follows the whitespace character [s] starts with, if it starts
    with one. *)
Definition space_head (s : string) : option string :=
  match s with
  | String c1 s1 =>
      if space1 c1 then Some s1
      else match s1 with
           | String c2 s2 =>
               if space2 c1 c2 then Some s2
               else match s2 with
                    | String c3 s3 =>
                        if space3 c1 c2 c3 then Some s3 else None
                    | EmptyString => None
                    end
           | EmptyString => None
           end
  | EmptyString => None
  end.

(** Drops the whitespace characters at the start. *)
Fixpoint lstrip (s : string) : string :=
  match s with
  | String c1 s1 =>
      if space1 c1 then lstrip s1
      else match s1 with
           | String c2 s2 =>
               if space2 c1 c2 then lstrip s2
               else match s2 with
                    | String c3 s3 =>
                        if space3 c1 c2 c3 then lstrip s3 else s
                    | EmptyString => s
                    end
           | EmptyString => s
           end
  | EmptyString => EmptyString
  end.

(** [s] is made of whitespace characters only. *)
Fixpoint all_space (s : string) : bool :=
  match s with
  | String c1 s1 =>
      if space1 c1 then all_space s1
      else match s1 with
           | String c2 s2 =>
               if space2 c1 c2 then all_space s2
               else match s2 with
                    | String c3 s3 =>
                        if space3 c1 c2 c3 then all_space s3 else false
                    | EmptyString => false
                    end
           | EmptyString => false
           end
  | EmptyString => true
  end.

(** Drops the whitespace characters at the end: what is left from some
    point on is dropped when it is whitespace only. *)
Fixpoint rstrip (s : string) : string :=
  match s with
  | EmptyString => EmptyString
  | String c s' => if all_space s then EmptyString else String c (rstrip s')
  end.

Definition strip (s : string) : string := rstrip (lstrip s).

(** ** Prompts *)

(** [if query:] on an [Optional[str]]: [None] and the empty string are
    false. *)
Definition truthy (query : option string) : bool :=
  match query with
  | None => false
  | Some EmptyString => false
  | Some (String _ _) => true
  end.

(** [f"{query}"]: the text an f-string puts for the query. *)
Definition fmt_query (query : option string) : string :=
  match query with
  | None => "None"
  | Some q => q
  end.

Definition ind12 : string := "            ".
Definition ind8 : string := "        ".

(** The prompt of a Map Worker (lines 42-62). *)
Definition map_prompt (batch_content : string) (query : option string)
  : string :=
  if truthy query then
    nl +:+ ind12 +:+ "This is a batch of content from a larger document. Summarize this specific batch while paying close attention " +:+ nl
    +:+ ind12 +:+ "to any information that could help answer the following user question. " +:+ nl
    +:+ ind12 +:+ "Extract all relevant details related to the question." +:+ nl
    +:+ ind12 +:+ "IMPORTANT: The summary characters with spaces for this batch must not exceed 5000 characters." +:+ nl
    +:+ ind12 +:+ "USER'S QUESTION: " +:+ dquote +:+ fmt_query query +:+ dquote +:+ nl
    +:+ nl
    +:+ ind12 +:+ "--- CONTENT OF THIS BATCH ---" +:+ nl
    +:+ ind12 +:+ batch_content +:+ nl
    +:+ ind12 +:+ "--- QUERY-FOCUSED SUMMARY OF THIS BATCH ---" +:+ nl
    +:+ ind12
  else
    nl +:+ ind12 +:+ "This is a batch of content from a larger document. Summarize the key points from this batch concisely. " +:+ nl
    +:+ ind12 +:+ "Focus on the main requirements, specifications, or objectives mentioned." +:+ nl
    +:+ ind12 +:+ "IMPORTANT: The summary characters with spaces for this batch must not exceed 5000 characters." +:+ nl
    +:+ ind12 +:+ "--- CONTENT ---" +:+ nl
    +:+ ind12 +:+ batch_content +:+ nl
    +:+ ind12 +:+ "--- GENERAL SUMMARY ---" +:+ nl
    +:+ ind12.

(** The prompt of the reduce call (lines 90-112). *)
Definition reduce_prompt (combined_summaries : string) (query : option string)
  : string :=
  if truthy query then
    nl +:+ ind8 +:+ "Based on the following query-focused summaries, synthesize them into a single, coherent, and complete answer to the user's question." +:+ nl
    +:+ ind8 +:+ "IMPORTANT: The summary characters with spaces for this batch must not exceed 5000 characters." +:+ nl
    +:+ ind8 +:+ "USER'S QUESTION: " +:+ dquote +:+ fmt_query query +:+ dquote +:+ nl
    +:+ nl
    +:+ ind8 +:+ "--- QUERY-FOCUSED SUMMARIES ---" +:+ nl
    +:+ ind8 +:+ combined_summaries +:+ nl
    +:+ ind8 +:+ "--- FINAL DETAILED ANSWER ---" +:+ nl
    +:+ ind8
  else
    nl +:+ ind8 +:+ "From the following general summaries, compile a comprehensive and easy-to-understand executive summary." +:+ nl
    +:+ ind8 +:+ "Cover key points like Project Overview, Objectives, Scope, Qualifications, Budget, and Timeline." +:+ nl
    +:+ ind8 +:+ "Complete answer with markdown format and easy to read with bullet points." +:+ nl
    +:+ ind8 +:+ "IMPORTANT: The summary characters with spaces for this batch must not exceed 5000 characters." +:+ nl
    +:+ nl
    +:+ ind8 +:+ "--- GENERAL SUMMARIES ---" +:+ nl
    +:+ ind8 +:+ combined_summaries +:+ nl
    +:+ ind8 +:+ "--- FINAL EXECUTIVE SUMMARY ---" +:+ nl
    +:+ ind8.

(** ** Map Worker *)

(** The placeholder of a failed worker (line 70). *)
Definition failed_placeholder (index : Z) : string :=
  "[Failed to summarize batch " +:+ pretty index +:+ "]".

(** [summarize_batch_async(batch_content, index, query)] (lines 35-70). *)
Definition summarize_batch_async (B : backend) (batch_content : string)
    (index : Z) (query : option string) : M (Z * string) :=
  try_except
    (response <- await_generate_content_async B (map_prompt batch_content query) ;;
     t <- lift (text response) ;;
     ret (index, strip t))
    (fun e => ret (index, failed_placeholder index)).

(** ** Map Coordinator *)

(** What a Map Worker returns: [(index, summary)]. *)
Definition MapResult : Type := (Z * string)%type.

(** [map_results.sort(key=lambda x: x[0])]: Python's sort is stable, and a
    stable sort has one result, the one of insertion from the right. *)
Fixpoint insert_by_index (x : MapResult) (l : list MapResult)
  : list MapResult :=
  match l with
  | [] => [x]
  | y :: l' =>
      if x.1 <=? y.1 then x :: y :: l' else y :: insert_by_index x l'
  end.

Definition sort_by_index (l : list MapResult) : list MapResult :=
  foldr insert_by_index [] l.

(** Lines 84-85: sort the results, keep the summaries. *)
Definition individual_summaries (map_results : list MapResult)
  : list string :=
  map snd (sort_by_index map_results).

(** [asyncio.gather] over the tasks of line 80.  The tasks resolve one at a time, in an order
    the code does not control: at each step the schedule picks one of the
    tasks still pending (its number taken modulo how many are pending).  A
    resolved task's value is stored in the slot of its position among the
    awaitables; a task that raised makes the gather raise. *)
Fixpoint gather_run {A : Type} (fuel : nat) (sched : list nat)
    (pending : list (nat * result A)) (slots : list (option A))
  : result (list (option A)) :=
  match fuel with
  | O => Return slots
  | S fuel' =>
      let k := (hd 0 sched `mod` length pending)%nat in
      match pending !! k with
      | None => Return slots
      | Some (i, Return v) =>
          gather_run fuel' (tl sched) (delete k pending) (<[i := Some v]> slots)
      | Some (i, Raise e) => Raise e
      end
  end.

(** Every task is started, and makes its backend call, before any of them
    resolves: the calls are recorded in creation order.  One step per task
    resolves them all. *)
Definition gather {A : Type} (sched : list nat) (tasks : list (M A))
  : M (list A) :=
  let n := length tasks in
  (match gather_run n sched (imap pair (map value tasks)) (replicate n None) with
   | Raise e => Raise e
   | Return slots => Return (omap id slots)
   end,
   concat (map calls tasks)).

(** The tasks of line 80: batch [i] (0-based) gets index [i + 1]. *)
Definition map_tasks (B : backend) (batched_chunks : list string)
    (query : option string) : list (M MapResult) :=
  imap (fun i batch => summarize_batch_async B batch (Z.of_nat i + 1) query)
       batched_chunks.

(** ** Orchestrator *)

Definition reduce_error_prefix : string :=
  "An error occurred during the Reduce phase: ".

(** Lines 114-120: the single reduce call. *)
Definition reduce_phase (B : backend) (prompt : string) : M string :=
  try_except
    (final_response <- call_generate_content B prompt ;;
     t <- lift (text final_response) ;;
     ret (strip t))
    (fun e => ret (reduce_error_prefix +:+ exn_str e)).

(** [summarize_from_content_chunks(chunks_content, query)] (lines 73-120),
    under the completion order [sched] of the map tasks. *)
Definition summarize_from_content_chunks (B : backend) (sched : list nat)
    (chunks_content : list string) (query : option string) : M string :=
  batched_chunks <- lift (group_chunks chunks_content 7) ;;
  map_results <- gather sched (map_tasks B batched_chunks query) ;;
  let combined_summaries :=
    join summary_separator (individual_summaries map_results) in
  reduce_phase B (reduce_prompt combined_summaries query).

(** ** File entry point *)

(** A value [json.load] builds. *)
Inductive json : Type :=
  | JNull
  | JBool (b : bool)
  | JInt (n : Z)
  | JString (s : string)
  | JArray (items : list json)
  | JObject (fields : list (string * json)).

(** What the code needs from outside: opening and reading a file, and
    parsing its text. *)
Record environment : Type := Environment {
  open_read : string -> result string;
  json_load : string -> result json
}.

(** [d.get(key, default)] on a parsed object. *)
Fixpoint dict_get (fields : list (string * json)) (key : string)
    (default : json) : json :=
  match fields with
  | [] => default
  | (k, v) :: rest => if String.eqb k key then v else dict_get rest key default
  end.

(** [type(v).__name__]. *)
Definition type_name (v : json) : string :=
  match v with
  | JNull => "NoneType"
  | JBool _ => "bool"
  | JInt _ => "int"
  | JString _ => "str"
  | JArray _ => "list"
  | JObject _ => "dict"
  end.

Definition no_attribute_get (v : json) : exn :=
  Exn AttributeError
      ("'" +:+ type_name v +:+ "' object has no attribute 'get'").

(** [v.get(key, default)]: only a dict has [get]. *)
Definition py_get (v : json) (key : string) (default : json) : result json :=
  match v with
  | JObject fields => Return (dict_get fields key default)
  | _ => Raise (no_attribute_get v)
  end.

Fixpoint string_chars (s : string) : list json :=
  match s with
  | EmptyString => []
  | String c s' => JString (String c EmptyString) :: string_chars s'
  end.

(** [for item in v]: a list gives its items, a string its characters, a
    dict its keys; nothing else is iterable. *)
Definition py_iter (v : json) : result (list json) :=
  match v with
  | JArray items => Return items
  | JString s => Return (string_chars s)
  | JObject fields => Return (map (fun kv => JString kv.1) fields)
  | _ => Raise (Exn TypeError
                    ("'" +:+ type_name v +:+ "' object is not iterable"))
  end.

(** [[item.get('content', '') for item in items]]: stops at the first item
    without [get]. *)
Fixpoint contents_of (items : list json) : result (list json) :=
  match items with
  | [] => Return []
  | item :: rest =>
      match py_get item "content" (JString EmptyString) with
      | Raise e => Raise e
      | Return c =>
          match contents_of rest with
          | Raise e => Raise e
          | Return cs => Return (c :: cs)
          end
      end
  end.

(** [summarize_from_content_chunks] is handed whatever the content fields
    held.  When one of them is not a string the first [join] that meets it
    (in [group_chunks], before any task is created) raises TypeError, naming
    the item's position in its batch of 7. *)
Fixpoint as_strings (pos : nat) (chunks : list json) : result (list string) :=
  match chunks with
  | [] => Return []
  | JString s :: rest =>
      match as_strings (S pos) rest with
      | Raise e => Raise e
      | Return ss => Return (s :: ss)
      end
  | v :: _ =>
      Raise (Exn TypeError
                 ("sequence item " +:+ pretty (pos `mod` 7)%nat
                  +:+ ": expected str instance, " +:+ type_name v +:+ " found"))
  end.

(** [try: body except (FileNotFoundError, json.JSONDecodeError) as e:
    handler(e)]: any other exception goes on to the caller. *)
Definition try_except_file {A : Type} (body : M A) (handler : exn -> M A)
  : M A :=
  match body with
  | (Raise e, t) =>
      match exn_cls e with
      | FileNotFoundError | JSONDecodeError =>
          let '(r, t') := handler e in (r, (t ++ t')%list)
      | _ => (Raise e, t)
      end
  | done => done
  end.

(** The [try] block of [summarize_from_file] (lines 128-132) either
    returns early with a message or leaves the chunk contents. *)
Inductive loaded : Type :=
  | EarlyReturn (message : string)
  | Chunks (chunks_content : list json).

(** [summarize_from_file(file_path, query)] (lines 123-136). *)
Definition summarize_from_file (env : environment) (B : backend)
    (sched : list nat) (file_path : string) (query : option string)
  : M string :=
  outcome <-
    try_except_file
      (f <- lift (open_read env file_path) ;;
       data <- lift (json_load env f) ;;
       records <- lift (py_get data "data" (JArray [])) ;;
       items <- lift (py_iter records) ;;
       chunks_content <- lift (contents_of items) ;;
       match chunks_content with
       | [] => ret (EarlyReturn "No 'content' data found in the file.")
       | _ => ret (Chunks chunks_content)
       end)
      (fun e =>
         ret (EarlyReturn ("Error reading or parsing the file: " +:+ exn_str e))) ;;
  match outcome with
  | EarlyReturn message => ret message
  | Chunks chunks_content =>
      chunks <- lift (as_strings 0 chunks_content) ;;
      summarize_from_content_chunks B sched chunks query
  end.

(** ** Re-splitting a batch *)

(** [s.startswith(p)]. *)
Fixpoint startswith (p s : string) : bool :=
  match p, s with
  | EmptyString, _ => true
  | String a p', String b s' => Ascii.eqb a b && startswith p' s'
  | String _ _, EmptyString => false
  end.

(** [s.split(sep)] for a non-empty [sep]: the text is scanned from the
    left, every occurrence of [sep] found ends the current piece and the
    scan goes on after it ([skip] counts the characters of the occurrence
    still to pass; [piece] is the piece read so far). *)
Fixpoint split_scan (sep : string) (skip : nat) (piece : string)
    (s : string) : list string :=
  match s with
  | EmptyString => [piece]
  | String c s' =>
      match skip with
      | S k => split_scan sep k piece s'
      | O =>
          if startswith sep s
          then piece :: split_scan sep (String.length sep - 1) EmptyString s'
          else split_scan sep 0 (piece +:+ String c EmptyString) s'
      end
  end.

Definition split (sep s : string) : list string :=
  split_scan sep 0 EmptyString s.

(** The separator is not found starting inside [chunk] when [chunk] is
    followed by the separator: it neither occurs in [chunk] nor begins in
    its tail and ends in the separator that follows. *)
Fixpoint separator_free (sep chunk : string) : bool :=
  match chunk with
  | EmptyString => true
  | String _ chunk' =>
      negb (startswith sep (chunk +:+ sep)) && separator_free sep chunk'
  end.

(** [sep in chunk]. *)
Fixpoint contains (sep chunk : string) : bool :=
  startswith sep chunk ||
  match chunk with
  | EmptyString => false
  | String _ chunk' => contains sep chunk'
  end.

(** The groups [range_up] cuts from position [start] on, [s] chunks each. *)
Definition groups_from {A : Type} (l : list A) (s fuel start : nat)
  : list (list A) :=
  map (fun i => slice l i s) (range_up fuel start (length l) s).

(** A chunk that ends like the separator minus its two final line breaks. *)
Definition near_separator : string :=
  nl +:+ nl +:+ "--- (New Chunk in Batch) ---".




(** A backend call failed: it raised, or the response has no text. *)
Definition call_failed (r : result response) : bool :=
  match r with
  | Raise _ => true
  | Return resp =>
      match text resp with
      | Raise _ => true
      | Return _ => false
      end
  end.

(** The text of a backend call that did not fail. *)
Definition call_text (r : result response) : option string :=
  match r with
  | Return resp =>
      match text resp with
      | Return t => Some t
      | Raise _ => None
      end
  | Raise _ => None
  end.

(** The exception of a backend call that failed. *)
Definition call_error (r : result response) : option exn :=
  match r with
  | Raise e => Some e
  | Return resp =>
      match text resp with
      | Raise e => Some e
      | Return _ => None
      end
  end.

(** The MapResults in batch order: batch [i] (0-based) with the summary
    [summaries] gives for it. *)
Definition ordered_results (summaries : list string) : list MapResult :=
  imap (fun i s => (Z.of_nat i + 1, s)) summaries.

(** The summary a Map Worker returns for a batch: the trimmed text of its
    backend call, or the placeholder when the call failed. *)
Definition worker_summary (B : backend) (batch_content : string) (index : Z)
    (query : option string) : string :=
  match call_text (generate_content_async B (map_prompt batch_content query)) with
  | Some t => strip t
  | None => failed_placeholder index
  end.

(** The summaries of all batches, in batch order. *)
Definition batch_summaries (B : backend) (batched_chunks : list string)
    (query : option string) : list string :=
  imap (fun i batch => worker_summary B batch (Z.of_nat i + 1) query)
       batched_chunks.

(** The calls of the map phase, one per batch, in batch order. *)
Definition map_calls (batched_chunks : list string) (query : option string)
  : list call :=
  map (fun batch => AsyncCall (map_prompt batch query)) batched_chunks.

(** What the reduce phase returns for a prompt: the trimmed text of the
    backend call, or the error string when the call failed. *)
Definition reduce_outcome (B : backend) (prompt : string) : string :=
  match generate_content B prompt with
  | Raise e => reduce_error_prefix +:+ exn_str e
  | Return resp =>
      match text resp with
      | Raise e => reduce_error_prefix +:+ exn_str e
      | Return t => strip t
      end
  end.

(** The batches of a run: [group_chunks] with [batch_size = 7]. *)
Definition default_batches (chunks_content : list string) : list string :=
  map (join chunk_separator)
      (groups_from chunks_content 7 (length chunks_content) 0).

(** The prompt of the reduce call of a run. *)
Definition run_reduce_prompt (B : backend) (batched_chunks : list string)
    (query : option string) : string :=
  reduce_prompt
    (join summary_separator (batch_summaries B batched_chunks query)) query.

(** The results are ordered by index. *)
Definition index_le (x y : MapResult) : Prop := x.1 <= y.1.

(** Backends to run the code on: one that answers every map prompt with
    the prompt itself, and one whose every call raises. *)
Definition answering_backend : backend :=
  Backend (fun prompt => Return (Response (Return prompt)))
          (fun _ => Return (Response (Return " the final text "))).

(** A backend whose map calls raise and whose reduce call answers. *)
Definition map_failing_backend : backend :=
  Backend (fun _ => Raise (Exn (OtherException "DeadlineExceeded")
                               "504 Deadline Exceeded"))
          (fun _ => Return (Response (Return " the final text "))).

Definition eight_chunks : list string :=
  ["a"; "b"; "c"; "d"; "e"; "f"; "g"; "h"].

Definition unavailable : exn :=
  Exn (OtherException "ServiceUnavailable") "503 The service is unavailable".

Definition failing_backend : backend :=
  Backend (fun _ => Raise unavailable) (fun _ => Raise unavailable).

(** An exception of one of the two classes [summarize_from_file] handles. *)
Definition handled (e : exn) : bool :=
  match exn_cls e with
  | FileNotFoundError | JSONDecodeError => true
  | _ => false
  end.

Definition file_error_prefix : string := "Error reading or parsing the file: ".

Definition no_content_message : string :=
  "No 'content' data found in the file.".

(** The input failures [summarize_from_file] turns into a message: the file
    is missing, its text is not JSON, or it is a JSON object whose [data]
    field (an empty list when absent) has nothing to iterate over. *)
Definition input_failure (env : environment) (file_path message : string)
  : Prop :=
  (exists e, open_read env file_path = Raise e /\ handled e = true
             /\ message = file_error_prefix +:+ exn_str e)
  \/ (exists f e, open_read env file_path = Return f
                  /\ json_load env f = Raise e /\ handled e = true
                  /\ message = file_error_prefix +:+ exn_str e)
  \/ (exists f fields,
         open_read env file_path = Return f
         /\ json_load env f = Return (JObject fields)
         /\ py_iter (dict_get fields "data" (JArray [])) = Return []
         /\ message = no_content_message).

(** The values a [for] loop accepts. *)
Definition iterable (v : json) : bool :=
  match v with
  | JArray _ | JString _ | JObject _ => true
  | _ => false
  end.

Definition is_object (v : json) : bool :=
  match v with
  | JObject _ => true
  | _ => false
  end.

(** The input failures [summarize_from_file] lets through as exception [e]:
    reading the file or parsing its text raises an exception of another
    class than the two it handles; the parsed value is not a JSON object;
    the [data] field of the object is not iterable; or the items of [data]
    are objects up to one that is not. *)
Definition input_raises (env : environment) (file_path : string) (e : exn)
  : Prop :=
  (open_read env file_path = Raise e /\ handled e = false)
  \/ (exists f, open_read env file_path = Return f
                /\ json_load env f = Raise e /\ handled e = false)
  \/ (exists f data,
         open_read env file_path = Return f
         /\ json_load env f = Return data
         /\ is_object data = false
         /\ e = Exn AttributeError
                   ("'" +:+ type_name data
                    +:+ "' object has no attribute 'get'"))
  \/ (exists f fields,
         open_read env file_path = Return f
         /\ json_load env f = Return (JObject fields)
         /\ iterable (dict_get fields "data" (JArray [])) = false
         /\ e = Exn TypeError
                   ("'" +:+ type_name (dict_get fields "data" (JArray []))
                    +:+ "' object is not iterable"))
  \/ (exists f fields records item rest,
         open_read env file_path = Return f
         /\ json_load env f = Return (JObject fields)
         /\ py_iter (dict_get fields "data" (JArray []))
            = Return (map JObject records ++ item :: rest)%list
         /\ is_object item = false
         /\ e = Exn AttributeError
                   ("'" +:+ type_name item
                    +:+ "' object has no attribute 'get'")).

(** A small file system: a file that cannot be read, a file holding a JSON
    list, one holding an empty object, one holding broken JSON; any other
    path is missing. *)
Definition permission_denied : exn :=
  Exn PermissionError "[Errno 13] Permission denied: 'locked.json'".

Definition sample_open (file_path : string) : result string :=
  if String.eqb file_path "locked.json" then Raise permission_denied
  else if String.eqb file_path "list.json" then Return "[]"
  else if String.eqb file_path "empty.json" then Return "{}"
  else if String.eqb file_path "broken.json" then Return "{"
  else Raise (Exn FileNotFoundError
                  ("[Errno 2] No such file or directory: '"
                   +:+ file_path +:+ "'")).

Definition sample_json_load (f : string) : result json :=
  if String.eqb f "[]" then Return (JArray [])
  else if String.eqb f "{}" then Return (JObject [])
  else Raise (Exn JSONDecodeError
                  "Expecting property name enclosed in double quotes: line 1 column 2 (char 1)").

Definition sample_env : environment :=
  Environment sample_open sample_json_load.

(** Ceiling of [a / b] for [b > 0]. *)
Definition ceil_div (a b : Z) : Z := - ((- a) / b).

(** Two documents to run the file entry point on: one with two records,
    the second without a [content] field, and one whose second record has
    a number for content.  Their texts stand for the JSON [json.load]
    parses to these values. *)
Definition two_records : json :=
  JObject [("success", JBool true);
           ("data", JArray [JObject [("content", JString "first")];
                            JObject [("score", JInt 3)]])].

Definition number_content : json :=
  JObject [("data", JArray [JObject [("content", JString "first")];
                            JObject [("content", JInt 5)]])].

Definition documents_env : environment :=
  Environment
    (fun file_path =>
       if String.eqb file_path "two.json" then Return "text of two.json"
       else if String.eqb file_path "number.json"
            then Return "text of number.json"
       else if String.eqb file_path "list.json" then Return "text of list.json"
       else Raise (Exn FileNotFoundError
                       ("[Errno 2] No such file or directory: '"
                        +:+ file_path +:+ "'")))
    (fun f =>
       if String.eqb f "text of two.json" then Return two_records
       else if String.eqb f "text of number.json" then Return number_content
       else Return (JArray [JInt 1])).

(** Two documents that are objects without a list of records: one whose
    [data] is null, one whose second item of [data] is a number. *)
Definition records_env : environment :=
  Environment
    (fun file_path =>
       if String.eqb file_path "null.json" then Return "text of null.json"
       else if String.eqb file_path "mixed.json"
            then Return "text of mixed.json"
       else Raise (Exn FileNotFoundError
                       ("[Errno 2] No such file or directory: '"
                        +:+ file_path +:+ "'")))
    (fun f =>
       if String.eqb f "text of null.json"
       then Return (JObject [("data", JNull)])
       else Return (JObject
                      [("data", JArray [JObject [("content", JString "first")];
                                        JInt 7;
                                        JObject []])])).

(** ** Surrounding whitespace *)

Definition starts_with_space (s : string) : bool :=
  match space_head s with
  | Some _ => true
  | None => false
  end.

(** [s] is one whitespace character. *)
Definition one_space (s : string) : bool :=
  match space_head s with
  | Some EmptyString => true
  | _ => false
  end.

Fixpoint ends_with_space (s : string) : bool :=
  match s with
  | EmptyString => false
  | String _ s' => one_space s || ends_with_space s'
  end.

(** ** HTTP layer ([api_server.py]) *)

Module ApiServer.

(** What the body of a handler can raise: FastAPI's [HTTPException], or
    any other exception. *)
Inductive raised : Type :=
  | HTTPException (status_code : nat) (detail : string)
  | PyException (e : exn).

(** What the client gets: the returned dict (status 200), or the error
    response FastAPI builds from an [HTTPException] that leaves the
    handler. *)
Inductive http_result (A : Type) : Type :=
  | Responded (body : A)
  | Failed (status_code : nat) (detail : string).
Arguments Responded {A} body.
Arguments Failed {A} status_code detail.

(** The request models (lines 32-45). *)
Record MetadataModel : Type := {
  file_name : string;
  source_url : string;
  tags : string
}.

Record ChunkModel : Type := {
  metadata : MetadataModel;
  score : Z;
  content : string
}.

Record InputModel : Type := {
  success : bool;
  query : option string;
  data : list ChunkModel
}.

(** The dict of line 73. *)
Record json_body_response : Type := {
  jb_input_type : string;
  jb_query : option string;
  jb_summary : string
}.

(** The dict of line 100. *)
Record file_upload_response : Type := {
  fu_input_type : string;
  fu_filename : option string;
  fu_query : option string;
  fu_summary : string
}.

(** The part of an [UploadFile] the handler reads: its name, its declared
    content type (both optional) and its content. *)
Record UploadFile : Type := {
  filename : option string;
  content_type : option string;
  file : string
}.

Definition internal_error_prefix : string :=
  "An internal server error occurred: ".

Section handlers.
(** [str(e)] for an [HTTPException], as the installed Starlette prints
    it. *)
Variable str_http : nat -> string -> string.

(** [str(e)] at lines 76 and 103. *)
Definition str_raised (x : raised) : string :=
  match x with
  | HTTPException status_code detail => str_http status_code detail
  | PyException e => exn_str e
  end.

(** [except Exception as e: raise HTTPException(500, ...)] (lines 75-76
    and 102-103): an [HTTPException] is an [Exception] too, so whatever the
    [try] block raises leaves the handler as a 500. *)
Definition except_internal {A : Type} (attempt : A + raised) : http_result A :=
  match attempt with
  | inl body => Responded body
  | inr x => Failed 500 (internal_error_prefix +:+ str_raised x)
  end.

(** [summarize_via_json_body(request_data)] (lines 56-76), under the
    completion order [sched] of the map tasks. *)
Definition summarize_via_json_body (B : backend) (sched : list nat)
    (request_data : InputModel)
  : http_result json_body_response * list call :=
  let chunks_content := map content (data request_data) in
  let user_query := query request_data in
  let '(attempt, t) :=
    match chunks_content with
    | [] =>
        (inr (HTTPException 400 "No 'content' data found in JSON body"), [])
    | _ =>
        match summarize_from_content_chunks B sched chunks_content user_query with
        | (Raise e, t) => (inr (PyException e), t)
        | (Return summary, t) =>
            if startswith "An error occurred" summary
            then (inr (HTTPException 500 summary), t)
            else (inl {| jb_input_type := "json_body";
                         jb_query := user_query;
                         jb_summary := summary |}, t)
        end
    end in
  (except_internal attempt, t).

(** The disk is a map from path to content: the regular files of the
    working directory, which the server may write to.  Directories and
    links are not part of it.  Where a directory sits under the temporary
    name the real [open] for writing raises, and then [os.remove] in the
    [finally] clause raises as well and its exception leaves the handler;
    that case is outside this disk, and what is proved about the files
    left behind is proved for a write that succeeded. *)

(** [json.load], and whether opening a path for writing raises. *)
Variable json_load : string -> result json.
Variable write_error : string -> option exn.

(** Reading from the files: a path that is not there raises
    FileNotFoundError. *)
Definition env_of (fs : gmap string string) : environment :=
  Environment
    (fun path =>
       match fs !! path with
       | Some f => Return f
       | None =>
           Raise (Exn FileNotFoundError
                      ("[Errno 2] No such file or directory: '"
                       +:+ path +:+ "'"))
       end)
    json_load.

(** [f"temp_{file.filename}"] (line 88). *)
Definition temp_file_path (upload : UploadFile) : string :=
  "temp_" +:+ fmt_query (filename upload).

(** Lines 105-107: the temporary file is removed when it exists.  On this
    disk whatever exists under a path is a regular file, the one the
    handler has just written when the write succeeded, and removing it
    succeeds. *)
Definition remove_if_exists (path : string) (fs : gmap string string)
  : gmap string string :=
  match fs !! path with
  | Some _ => delete path fs
  | None => fs
  end.

(** [file.content_type != 'application/json'] (line 85) is false. *)
Definition is_json_upload (upload : UploadFile) : bool :=
  match content_type upload with
  | Some declared => String.eqb declared "application/json"
  | None => false
  end.

(** [summarize_via_file_upload(file, query)] (lines 79-107): the response,
    the files left on disk, and the backend calls made. *)
Definition summarize_via_file_upload (B : backend) (sched : list nat)
    (fs : gmap string string) (upload : UploadFile) (query : option string)
  : http_result file_upload_response * gmap string string * list call :=
  if is_json_upload upload then
    let temp := temp_file_path upload in
    let '(attempt, fs1, t) :=
      match write_error temp with
      | Some e => (inr (PyException e), fs, [])
      | None =>
          let fs1 := <[temp := file upload]> fs in
          match summarize_from_file (env_of fs1) B sched temp query with
          | (Raise e, t) => (inr (PyException e), fs1, t)
          | (Return summary, t) =>
              if startswith "Error" summary
              then (inr (HTTPException 500 summary), fs1, t)
              else (inl {| fu_input_type := "file_upload";
                           fu_filename := filename upload;
                           fu_query := query;
                           fu_summary := summary |}, fs1, t)
          end
      end in
    (except_internal attempt, remove_if_exists temp fs1, t)
  else
    (Failed 400 "Uploaded file must be of type application/json", fs, []).

(** [verify_token(credentials)] (lines 22-29), with the configured
    [BEARER_TOKEN]. *)
Definition verify_token (BEARER_TOKEN scheme credentials : string)
  : http_result bool :=
  if negb (String.eqb scheme "Bearer")
     || negb (String.eqb credentials BEARER_TOKEN)
  then Failed 403 "Invalid or missing authentication token"
  else Responded true.
End handlers.

End ApiServer.

(** ** Sample requests *)

(** [str(e)] of an [HTTPException] in current Starlette: the status code
    and the detail. *)
Definition starlette_str (status_code : nat) (detail : string) : string :=
  pretty status_code +:+ ": " +:+ detail.

Definition empty_request : ApiServer.InputModel :=
  {| ApiServer.success := true;
     ApiServer.query := None;
     ApiServer.data := [] |}.

Definition one_chunk_request : ApiServer.InputModel :=
  {| ApiServer.success := true;
     ApiServer.query := Some "What is the budget?";
     ApiServer.data :=
       [ {| ApiServer.metadata :=
              {| ApiServer.file_name := "tor.pdf";
                 ApiServer.source_url := "https://example.org/tor.pdf";
                 ApiServer.tags := "tor" |};
            ApiServer.score := 1;
            ApiServer.content := "The budget is 5 million." |} ] |}.

Definition json_upload : ApiServer.UploadFile :=
  {| ApiServer.filename := Some "doc.json";
     ApiServer.content_type := Some "application/json";
     ApiServer.file := "text of two.json" |}.

Definition text_upload : ApiServer.UploadFile :=
  {| ApiServer.filename := Some "notes.txt";
     ApiServer.content_type := Some "text/plain";
     ApiServer.file := "some notes" |}.

Definition broken_upload : ApiServer.UploadFile :=
  {| ApiServer.filename := Some "broken.json";
     ApiServer.content_type := Some "application/json";
     ApiServer.file := "{" |}.

(** A parser that accepts one text and rejects every other. *)
Definition strict_json_load (f : string) : result json :=
  if String.eqb f "text of two.json" then Return two_records
  else Raise (Exn JSONDecodeError
                  "Expecting value: line 1 column 1 (char 0)").

Definition no_write_error (path : string) : option exn := None.

(** A disk that already holds a file under the temporary name. *)
Definition disk_with_temp : gmap string string :=
  {[ "temp_doc.json" := "an older file"; "keep.txt" := "kept" ]}.

(** * Properties *)

(** ** Batcher *)

Section range_up.
Context {A : Type}.
Variable l : list A.
Variable s : nat.
Hypothesis s_pos : (0 < s)%nat.

Lemma groups_from_concat (fuel start : nat) :
  (length l - start <= fuel)%nat ->
  concat (groups_from l s fuel start) = drop start l.
Proof using s_pos.
  unfold groups_from.
  revert start; induction fuel as [|fuel IH]; intros start Hfuel; simpl.
  - symmetry; apply drop_ge; lia.
  - destruct (Nat.ltb_spec start (length l)) as [Hlt|Hge]; simpl.
    + rewrite IH by lia.
      unfold slice. rewrite <- drop_drop. apply take_drop.
    + symmetry; apply drop_ge; lia.
Qed.

Lemma groups_from_sizes (fuel start : nat) :
  Forall (fun g => (1 <= length g <= s)%nat) (groups_from l s fuel start).
Proof using s_pos.
  unfold groups_from.
  revert start; induction fuel as [|fuel IH]; intros start; simpl.
  - constructor.
  - destruct (Nat.ltb_spec start (length l)) as [Hlt|Hge]; simpl.
    + constructor; [|apply IH].
      unfold slice. rewrite length_take, length_drop. lia.
    + constructor.
Qed.

(** Every group followed by another one is full. *)
Lemma groups_from_full (fuel start i : nat) (g : list A) :
  groups_from l s fuel start !! i = Some g ->
  (S i < length (groups_from l s fuel start))%nat ->
  length g = s.
Proof using s_pos.
  unfold groups_from.
  revert start i; induction fuel as [|fuel IH]; intros start i; simpl.
  - intros Hl; inversion Hl.
  - destruct (Nat.ltb_spec start (length l)) as [Hlt|Hge]; simpl;
      [|intros Hl; inversion Hl].
    destruct i as [|i]; simpl.
    + intros Hg Hlen. injection Hg as <-.
      destruct fuel as [|fuel]; simpl in Hlen; [lia|].
      destruct (Nat.ltb_spec (start + s) (length l)) as [Hlt'|Hge'];
        simpl in Hlen; [|lia].
      unfold slice. rewrite length_take, length_drop. lia.
    + intros Hg Hlen. apply (IH (start + s)%nat i); [exact Hg|lia].
Qed.

(** The number of groups is the ceiling of what is left over [s]. *)
Lemma groups_from_count (fuel start : nat) :
  (length l - start <= fuel)%nat ->
  let n := length (groups_from l s fuel start) in
  let d := (length l - start)%nat in
  ((n - 1) * s < d \/ d = 0%nat /\ n = 0%nat)%nat /\ (d <= n * s)%nat.
Proof using s_pos.
  unfold groups_from.
  revert start; induction fuel as [|fuel IH]; intros start Hfuel; simpl.
  - lia.
  - destruct (Nat.ltb_spec start (length l)) as [Hlt|Hge]; simpl; [|lia].
    specialize (IH (start + s)%nat ltac:(lia)). simpl in IH.
    rewrite length_map in *.
    set (n := length (range_up fuel (start + s) (length l) s)) in *.
    nia.
Qed.
End range_up.

Lemma chunk_groups_positive (chunks : list string) (batch_size : Z) :
  0 < batch_size ->
  chunk_groups chunks batch_size
  = Return (groups_from chunks (Z.to_nat batch_size) (length chunks) 0).
Proof.
  intros Hpos. unfold chunk_groups, py_range0.
  destruct (Z.eqb_spec batch_size 0) as [->|_]; [lia|].
  destruct (Z.ltb_spec batch_size 0) as [?|_]; [lia|].
  reflexivity.
Qed.

(** C3, as the code has it: [group_chunks] raises (the ValueError of
    [range]) exactly for a zero [batch_size], whatever the chunk list; a
    negative [batch_size] raises nothing and gives no batch at all. *)
Theorem group_chunks_nonpositive_batch_size
    (chunks : list string) (batch_size : Z) :
  batch_size <= 0 ->
  (batch_size = 0 ->
   group_chunks chunks batch_size
   = Raise (Exn ValueError "range() arg 3 must not be zero"))
  /\ (batch_size < 0 -> group_chunks chunks batch_size = Return []).
Proof.
  intros _. split; intros H.
  - subst batch_size. reflexivity.
  - unfold group_chunks, chunk_groups, py_range0.
    destruct (Z.eqb_spec batch_size 0) as [?|_]; [lia|].
    destruct (Z.ltb_spec batch_size 0) as [_|?]; [|lia].
    reflexivity.
Qed.

Lemma group_chunks_nonpositive_batch_size_witness :
  group_chunks ["a"; "b"] 0
  = Raise (Exn ValueError "range() arg 3 must not be zero").
Proof.
  apply (group_chunks_nonpositive_batch_size ["a"; "b"] 0); lia.
Defined.

(** C3 as stated fails: with [batch_size = -1] nothing is raised. *)
Lemma group_chunks_negative_batch_size_returns :
  -1 <= 0 /\ group_chunks ["a"; "b"] (-1) = Return []
  /\ ~ (exists e, group_chunks ["a"; "b"] (-1) = Raise e).
Proof.
  split; [lia|]. split; [reflexivity|].
  intros [e He]. discriminate He.
Qed.

(** C4: for [batch_size > 0], [group_chunks] raises nothing and returns
    ceil(len(chunks) / batch_size) batches: none for an empty chunk list,
    at least one otherwise. *)
Theorem group_chunks_count (chunks : list string) (batch_size : Z) :
  0 < batch_size ->
  exists batches : list string,
    group_chunks chunks batch_size = Return batches
    /\ Z.of_nat (length batches)
       = ceil_div (Z.of_nat (length chunks)) batch_size
    /\ (chunks = [] -> batches = [])
    /\ (chunks <> [] -> (1 <= length batches)%nat).
Proof.
  intros Hpos. unfold group_chunks.
  rewrite chunk_groups_positive by exact Hpos.
  eexists; split; [reflexivity|].
  rewrite length_map.
  pose proof (groups_from_count chunks (Z.to_nat batch_size) ltac:(lia)
                (length chunks) 0%nat ltac:(lia)) as [Hlo Hhi].
  simpl in Hlo, Hhi. rewrite Nat.sub_0_r in Hlo, Hhi.
  set (n := length (groups_from chunks (Z.to_nat batch_size) (length chunks) 0)) in *.
  split; [|split].
  - unfold ceil_div.
    assert (Hq : - Z.of_nat (length chunks) / batch_size = - Z.of_nat n).
    { symmetry.
      apply (Z.div_unique_pos _ _ _
               (Z.of_nat n * batch_size - Z.of_nat (length chunks))); nia. }
    lia.
  - intros ->. reflexivity.
  - intros Hne. destruct (Nat.eq_dec n 0%nat) as [Hn|Hn]; [|lia].
    rewrite Hn in Hhi. simpl in Hhi.
    destruct Hne. apply length_zero_iff_nil. lia.
Qed.

Lemma group_chunks_count_witness :
  exists batches : list string,
    group_chunks ["a"; "b"; "c"] 2 = Return batches
    /\ Z.of_nat (length batches) = ceil_div 3 2
    /\ (["a"; "b"; "c"] = [] -> batches = [])
    /\ (["a"; "b"; "c"] <> [] -> (1 <= length batches)%nat).
Proof.
  apply (group_chunks_count ["a"; "b"; "c"] 2). lia.
Defined.

(** ** Splitting a joined batch *)

Lemma append_nil_l (b : string) : EmptyString +:+ b = b.
Proof. reflexivity. Qed.

Lemma append_cons (x : ascii) (a b : string) :
  String x a +:+ b = String x (a +:+ b).
Proof. reflexivity. Qed.

Lemma append_assoc (a b c : string) : (a +:+ b) +:+ c = a +:+ (b +:+ c).
Proof.
  induction a as [|x a IH]; [reflexivity|].
  rewrite !append_cons. now rewrite IH.
Qed.

Lemma append_empty_r (a : string) : a +:+ EmptyString = a.
Proof.
  induction a as [|x a IH]; [reflexivity|].
  rewrite append_cons. now rewrite IH.
Qed.

Lemma startswith_refl_append (p rest : string) :
  startswith p (p +:+ rest) = true.
Proof.
  induction p as [|x p IH]; [reflexivity|].
  rewrite ?append_cons; simpl. rewrite Ascii.eqb_refl. exact IH.
Qed.

(** What is beyond the length of [p] does not matter. *)
Lemma startswith_append_long (p x y : string) :
  (String.length p <= String.length x)%nat ->
  startswith p (x +:+ y) = startswith p x.
Proof.
  revert x; induction p as [|a p IH]; intros x Hlen.
  - reflexivity.
  - destruct x as [|b x]; simpl in Hlen; [lia|].
    rewrite ?append_cons; simpl. rewrite IH by lia. reflexivity.
Qed.

Lemma startswith_append_true (p x y : string) :
  startswith p x = true -> startswith p (x +:+ y) = true.
Proof.
  revert x; induction p as [|a p IH]; intros x; simpl; [reflexivity|].
  destruct x as [|b x]; simpl; [discriminate|].
  intros [-> H]%andb_prop. rewrite ?append_cons; simpl. now apply IH.
Qed.

Lemma length_append (a b : string) :
  String.length (a +:+ b) = (String.length a + String.length b)%nat.
Proof.
  induction a as [|x a IH]; [reflexivity|].
  rewrite ?append_cons; simpl. now rewrite IH.
Qed.

Section split.
Variable sep : string.
Hypothesis sep_nonempty : sep <> EmptyString.

(** Passing over the rest of a found separator. *)
Lemma split_scan_skip (x piece rest : string) :
  split_scan sep (String.length x) piece (x +:+ rest)
  = split_scan sep 0 piece rest.
Proof.
  induction x as [|c x IH].
  - rewrite append_nil_l. destruct rest; reflexivity.
  - rewrite ?append_cons; simpl. exact IH.
Qed.

(** A clean chunk followed by the separator is read whole, then the
    separator is found. *)
Lemma split_scan_chunk (chunk piece rest : string) :
  separator_free sep chunk = true ->
  split_scan sep 0 piece (chunk +:+ sep +:+ rest)
  = (piece +:+ chunk) :: split_scan sep 0 EmptyString rest.
Proof using sep_nonempty.
  revert piece; induction chunk as [|c chunk IH]; intros piece Hfree.
  - rewrite append_nil_l, append_empty_r.
    destruct sep as [|x sep'] eqn:Esep; [congruence|].
    change ((String x sep') +:+ rest) with (String x (sep' +:+ rest)).
    cbn [split_scan].
    change (String x (sep' +:+ rest)) with ((String x sep') +:+ rest).
    rewrite startswith_refl_append.
    replace (String.length (String x sep') - 1)%nat
      with (String.length sep') by (simpl; lia).
    f_equal.
    pose proof (split_scan_skip sep' EmptyString rest) as Hskip.
    rewrite Esep in Hskip. exact Hskip.
  - simpl in Hfree. apply andb_prop in Hfree as [Hhere Hfree].
    apply negb_true_iff in Hhere.
    change (String c chunk +:+ sep +:+ rest)
      with (String c (chunk +:+ sep +:+ rest)).
    cbn [split_scan].
    change (String c (chunk +:+ sep +:+ rest))
      with (String c chunk +:+ (sep +:+ rest)).
    rewrite <- append_assoc.
    rewrite startswith_append_long
      by (rewrite length_append; simpl; lia).
    rewrite Hhere.
    rewrite IH by exact Hfree.
    rewrite append_assoc. reflexivity.
Qed.

(** A clean chunk at the end of the text is read whole. *)
Lemma split_scan_last (chunk piece : string) :
  separator_free sep chunk = true ->
  split_scan sep 0 piece chunk = [piece +:+ chunk].
Proof.
  revert piece; induction chunk as [|c chunk IH]; intros piece Hfree.
  - simpl. now rewrite append_empty_r.
  - simpl in Hfree. apply andb_prop in Hfree as [Hhere Hfree].
    apply negb_true_iff in Hhere.
    cbn [split_scan].
    destruct (startswith sep (String c chunk)) eqn:Hs.
    + apply (startswith_append_true _ _ sep) in Hs.
      rewrite Hhere in Hs. discriminate Hs.
    + rewrite IH by exact Hfree. now rewrite append_assoc.
Qed.

(** Splitting what [join] built gives the parts back. *)
Lemma split_join (parts : list string) :
  parts <> [] ->
  Forall (fun chunk => separator_free sep chunk = true) parts ->
  split sep (join sep parts) = parts.
Proof using sep_nonempty.
  unfold split.
  induction parts as [|p parts IH]; intros Hne Hfree; [congruence|].
  inversion Hfree as [|? ? Hp Hrest]; subst.
  destruct parts as [|q parts].
  - simpl. now apply split_scan_last.
  - change (join sep (p :: q :: parts))
      with (p +:+ sep +:+ join sep (q :: parts)).
    rewrite split_scan_chunk by exact Hp.
    rewrite IH by (congruence || exact Hrest). reflexivity.
Qed.
End split.

Lemma chunk_separator_nonempty : chunk_separator <> EmptyString.
Proof. discriminate. Qed.

(** A clean chunk does not contain the separator. *)
Lemma separator_free_not_contains (sep chunk : string) :
  sep <> EmptyString ->
  separator_free sep chunk = true -> contains sep chunk = false.
Proof.
  intros Hsep. induction chunk as [|c chunk IH]; intros Hfree.
  - destruct sep; [congruence|reflexivity].
  - simpl in Hfree. apply andb_prop in Hfree as [Hhere Hfree].
    apply negb_true_iff in Hhere.
    cbn [contains]. rewrite (IH Hfree), orb_false_r.
    destruct (startswith sep (String c chunk)) eqn:Hs; [|reflexivity].
    apply (startswith_append_true _ _ sep) in Hs.
    rewrite Hhere in Hs. discriminate Hs.
Qed.

(** C5, as the code has it: for [batch_size > 0] the batches are the joins
    of contiguous groups that cover the chunk list in order, every group
    holding between 1 and [batch_size] chunks and every group but the last
    exactly [batch_size]; splitting each batch on the separator and
    concatenating gives the chunk list back when no occurrence of the
    separator starts inside a chunk once the chunk is followed by the
    separator. *)
Theorem group_chunks_partition_roundtrip
    (chunks : list string) (batch_size : Z) :
  0 < batch_size ->
  exists groups : list (list string),
    group_chunks chunks batch_size
    = Return (map (join chunk_separator) groups)
    /\ concat groups = chunks
    /\ (forall (i : nat) (g : list string),
          groups !! i = Some g ->
          (1 <= length g <= Z.to_nat batch_size)%nat
          /\ ((S i < length groups)%nat -> length g = Z.to_nat batch_size))
    /\ (Forall (fun chunk => separator_free chunk_separator chunk = true)
               chunks ->
        concat (map (split chunk_separator)
                    (map (join chunk_separator) groups))
        = chunks).
Proof.
  intros Hpos. unfold group_chunks.
  rewrite chunk_groups_positive by exact Hpos.
  set (s := Z.to_nat batch_size).
  assert (Hs : (0 < s)%nat) by (subst s; lia).
  set (groups := groups_from chunks s (length chunks) 0).
  assert (Hconcat : concat groups = chunks).
  { subst groups. rewrite groups_from_concat by lia. apply drop_0. }
  exists groups. split; [reflexivity|]. split; [exact Hconcat|]. split.
  - intros i g Hg. split.
    + pose proof (groups_from_sizes chunks s Hs (length chunks) 0%nat) as Hall.
      rewrite Forall_lookup in Hall. exact (Hall i g Hg).
    + intros Hlen.
      exact (groups_from_full chunks s Hs (length chunks) 0%nat i g Hg Hlen).
  - intros Hfree. transitivity (concat groups); [|exact Hconcat]. f_equal.
    rewrite map_map. rewrite <- (map_id groups) at 2.
    apply map_ext_in. intros g Hin.
    apply list_elem_of_In in Hin.
    pose proof (groups_from_sizes chunks s Hs (length chunks) 0%nat) as Hall.
    rewrite Forall_forall in Hall. specialize (Hall g Hin).
    apply split_join.
    + exact chunk_separator_nonempty.
    + intros ->. simpl in Hall. lia.
    + rewrite Forall_forall in Hfree |- *. intros c Hc. apply Hfree.
      rewrite <- Hconcat. apply list_elem_of_In, in_concat.
      exists g. split; apply list_elem_of_In; assumption.
Qed.

Lemma group_chunks_partition_roundtrip_witness :
  exists groups : list (list string),
    group_chunks ["a"; "b"; "c"] 2
    = Return (map (join chunk_separator) groups)
    /\ concat groups = ["a"; "b"; "c"]
    /\ (forall (i : nat) (g : list string),
          groups !! i = Some g ->
          (1 <= length g <= Z.to_nat 2)%nat
          /\ ((S i < length groups)%nat -> length g = Z.to_nat 2))
    /\ (Forall (fun chunk => separator_free chunk_separator chunk = true)
               ["a"; "b"; "c"] ->
        concat (map (split chunk_separator)
                    (map (join chunk_separator) groups))
        = ["a"; "b"; "c"]).
Proof.
  apply (group_chunks_partition_roundtrip ["a"; "b"; "c"] 2). lia.
Defined.

(** C5 as stated fails: neither chunk contains the separator, yet the
    batch splits into other pieces than the two chunks. *)
Lemma split_join_overlap_counterexample :
  Forall (fun chunk => contains chunk_separator chunk = false)
         [near_separator; "x"]
  /\ group_chunks [near_separator; "x"] 7
     = Return [near_separator +:+ chunk_separator +:+ "x"]
  /\ concat (map (split chunk_separator)
                 [near_separator +:+ chunk_separator +:+ "x"])
     = [EmptyString; "--- (New Chunk in Batch) ---" +:+ nl +:+ nl +:+ "x"]
  /\ concat (map (split chunk_separator)
                 [near_separator +:+ chunk_separator +:+ "x"])
     <> [near_separator; "x"].
Proof.
  split; [repeat constructor|].
  split; [reflexivity|].
  split; [vm_compute; reflexivity|].
  vm_compute. discriminate.
Qed.

(** Nor is the number of pieces always the number of chunks. *)
Example split_join_overlap_count :
  let chunks := [near_separator +:+ nl;
                 "--- (New Chunk in Batch) ---" +:+ nl +:+ nl] in
  Forall (fun chunk => contains chunk_separator chunk = false) chunks
  /\ length (split chunk_separator (join chunk_separator chunks)) = 3%nat.
Proof. split; [repeat constructor|reflexivity]. Qed.

(** ** Prompt modes *)

(** C9: an empty query is an absent query.  The worker builds the same
    general prompt, makes the same call and returns the same result for
    the empty string as for [None]; the reduce prompt is the same too, the
    executive-summary one; the whole run is the same; the mode is chosen by
    [truthy]. *)
Theorem empty_query_is_general_mode
    (B : backend) (batch_content combined_summaries : string) (index : Z) :
  truthy (Some EmptyString) = false
  /\ map_prompt batch_content (Some EmptyString)
     = map_prompt batch_content None
  /\ summarize_batch_async B batch_content index (Some EmptyString)
     = summarize_batch_async B batch_content index None
  /\ reduce_prompt combined_summaries (Some EmptyString)
     = reduce_prompt combined_summaries None
  /\ (forall (sched : list nat) (chunks : list string),
        summarize_from_content_chunks B sched chunks (Some EmptyString)
        = summarize_from_content_chunks B sched chunks None).
Proof.
  split; [reflexivity|].
  split; [reflexivity|].
  split; [reflexivity|].
  split; [reflexivity|].
  intros sched chunks. reflexivity.
Qed.



(** ** Gathering the workers *)

Section gather.
Context {A : Type}.
Implicit Types (vs : list A) (slots : list (option A)).
Implicit Types (pending : list (nat * result A)).

Lemma omap_id_Some vs : omap id (map Some vs) = vs.
Proof.
  induction vs as [|v vs IH]; [reflexivity|].
  change (omap id (map Some (v :: vs))) with (v :: omap id (map Some vs)).
  now rewrite IH.
Qed.

(** When every pending task returns, one step per task fills every
    slot, in whatever order the schedule resolves them. *)
Lemma gather_run_all vs (fuel : nat) :
  forall (sched : list nat) pending slots,
    length slots = length vs ->
    (length pending <= fuel)%nat ->
    (forall i r, (i, r) ∈ pending -> exists v, r = Return v /\ vs !! i = Some v) ->
    (forall i v, vs !! i = Some v ->
                 slots !! i = Some (Some v) \/ (i, Return v) ∈ pending) ->
    gather_run fuel sched pending slots = Return (map Some vs).
Proof.
  assert (Hdone : forall slots,
             length slots = length vs ->
             (forall i v, vs !! i = Some v -> slots !! i = Some (Some v)) ->
             slots = map Some vs).
  { intros slots Hlen Hall. apply list_eq. intros i.
    change (map Some vs) with (Some <$> vs). rewrite list_lookup_fmap.
    destruct (vs !! i) as [v|] eqn:Hv; simpl.
    - now apply Hall.
    - apply lookup_ge_None. rewrite Hlen. now apply lookup_ge_None. }
  induction fuel as [|fuel IH]; intros sched pending slots Hlen Hfuel Hpend Hfill.
  - simpl. f_equal. apply Hdone; [exact Hlen|].
    intros i v Hv. destruct (Hfill i v Hv) as [H|H]; [exact H|].
    destruct pending; [inversion H|simpl in Hfuel; lia].
  - simpl.
    destruct (pending !! (hd 0 sched `mod` length pending)%nat)
      as [[i r]|] eqn:Hk.
    + set (k := (hd 0 sched `mod` length pending)%nat) in *.
      destruct (Hpend i r) as (v & -> & Hv).
      { eapply list_elem_of_lookup_2. exact Hk. }
      pose proof (take_drop_middle pending k _ Hk) as Hsplit.
      apply IH.
      * rewrite length_insert. exact Hlen.
      * rewrite length_delete by (rewrite Hk; eauto). lia.
      * intros j r Hin. apply Hpend.
        rewrite delete_take_drop in Hin. rewrite <- Hsplit.
        apply elem_of_app in Hin as [Hin|Hin];
          apply elem_of_app; [left; exact Hin|right; right; exact Hin].
      * intros j v' Hv'.
        destruct (Nat.eq_dec i j) as [->|Hne].
        { left. rewrite Hv in Hv'. injection Hv' as ->.
          apply list_lookup_insert_eq. rewrite Hlen.
          apply lookup_lt_Some in Hv. exact Hv. }
        destruct (Hfill j v' Hv') as [H|H].
        { left. rewrite list_lookup_insert_ne by exact Hne. exact H. }
        right. rewrite delete_take_drop. rewrite <- Hsplit in H.
        apply elem_of_app in H as [H|H]; apply elem_of_app;
          [left; exact H|].
        apply elem_of_cons in H as [H|H]; [congruence|right; exact H].
    + f_equal. apply Hdone; [exact Hlen|].
      intros i v Hv. destruct (Hfill i v Hv) as [H|H]; [exact H|].
      apply lookup_ge_None in Hk.
      destruct pending as [|p pending]; [inversion H|].
      pose proof (Nat.mod_upper_bound (hd 0%nat sched) (length (p :: pending))
                    ltac:(simpl; lia)).
      lia.
Qed.

(** Tasks that all return are gathered in task order, under every
    schedule, with the calls of all of them made. *)
Lemma gather_all_return (sched : list nat) (tasks : list (M A)) vs :
  map value tasks = map Return vs ->
  gather sched tasks = (Return vs, concat (map calls tasks)).
Proof.
  intros Hvals. unfold gather.
  assert (Hn : length tasks = length vs).
  { rewrite <- (length_map value tasks), Hvals. apply length_map. }
  rewrite (gather_run_all vs).
  - now rewrite omap_id_Some.
  - rewrite length_replicate. exact Hn.
  - rewrite length_imap, length_map. lia.
  - intros i r [j [x [Heq Hx]]]%elem_of_lookup_imap.
    injection Heq as -> ->. rewrite Hvals in Hx.
    change (map Return vs) with (Return <$> vs) in Hx.
    rewrite list_lookup_fmap in Hx.
    destruct (vs !! j) as [v|]; [|discriminate Hx].
    exists v. split; [now injection Hx|reflexivity].
  - intros i v Hv. right. rewrite Hvals.
    apply (elem_of_lookup_imap_2 pair (map Return vs) (Return v) i).
    change (map Return vs) with (Return <$> vs).
    rewrite list_lookup_fmap, Hv. reflexivity.
Qed.
End gather.

(** ** Map Worker and Map Coordinator *)

(** The worker never raises: it makes one call and returns its index with
    the summary or the placeholder. *)
Lemma summarize_batch_async_returns
    (B : backend) (batch_content : string) (index : Z) (query : option string) :
  summarize_batch_async B batch_content index query
  = (Return (index, worker_summary B batch_content index query),
     [AsyncCall (map_prompt batch_content query)]).
Proof.
  unfold summarize_batch_async, worker_summary, await_generate_content_async,
    call_text, try_except, bind, lift, ret.
  destruct (generate_content_async B (map_prompt batch_content query))
    as [[[t|e]]|e]; reflexivity.
Qed.

Lemma imap_imap {A B C : Type} (f : nat -> B -> C) (g : nat -> A -> B)
    (l : list A) :
  imap f (imap g l) = imap (fun i x => f i (g i x)) l.
Proof.
  revert f g; induction l as [|x l IH]; intros f g; [reflexivity|].
  rewrite !imap_cons. f_equal. apply IH.
Qed.

Lemma map_imap {A B C : Type} (h : B -> C) (g : nat -> A -> B) (l : list A) :
  map h (imap g l) = imap (fun i x => h (g i x)) l.
Proof.
  revert g; induction l as [|x l IH]; intros g; [reflexivity|].
  rewrite !imap_cons. simpl. f_equal. apply IH.
Qed.

Lemma imap_ignore_index {A B : Type} (h : A -> B) (l : list A) :
  imap (fun _ x => h x) l = map h l.
Proof. exact (imap_const h l). Qed.

Lemma map_tasks_values (B : backend) (batches : list string)
    (query : option string) :
  map value (map_tasks B batches query)
  = map Return (ordered_results (batch_summaries B batches query)).
Proof.
  unfold map_tasks, ordered_results, batch_summaries.
  rewrite imap_imap, !map_imap. apply imap_ext. intros i b _.
  now rewrite summarize_batch_async_returns.
Qed.

Lemma map_tasks_calls (B : backend) (batches : list string)
    (query : option string) :
  concat (map calls (map_tasks B batches query)) = map_calls batches query.
Proof.
  unfold map_tasks, map_calls. rewrite map_imap.
  rewrite (imap_ext _ (fun _ b => [AsyncCall (map_prompt b query)]))
    by (intros i b _; now rewrite summarize_batch_async_returns).
  rewrite imap_ignore_index.
  induction batches as [|b batches IH]; [reflexivity|].
  simpl. f_equal. exact IH.
Qed.

Lemma length_batch_summaries (B : backend) (batches : list string)
    (query : option string) :
  length (batch_summaries B batches query) = length batches.
Proof. apply length_imap. Qed.

(** *** Sorting by index *)

Lemma insert_by_index_perm (x : MapResult) (l : list MapResult) :
  insert_by_index x l ≡ₚ x :: l.
Proof.
  induction l as [|y l IH]; simpl; [reflexivity|].
  destruct (x.1 <=? y.1); [reflexivity|].
  rewrite IH. apply Permutation_swap.
Qed.

Lemma sort_by_index_perm (l : list MapResult) : sort_by_index l ≡ₚ l.
Proof.
  induction l as [|x l IH]; simpl; [reflexivity|].
  rewrite insert_by_index_perm. now rewrite IH.
Qed.

Lemma insert_by_index_sorted (x : MapResult) (l : list MapResult) :
  StronglySorted index_le l -> StronglySorted index_le (insert_by_index x l).
Proof.
  induction 1 as [|y l Hl IH Hy]; simpl.
  - repeat constructor.
  - destruct (Z.leb_spec x.1 y.1) as [Hle|Hgt].
    + constructor; [constructor; assumption|].
      constructor; [exact Hle|].
      eapply Forall_impl; [exact Hy|].
      unfold index_le. intros z Hz. lia.
    + constructor; [exact IH|].
      rewrite insert_by_index_perm. constructor; [|exact Hy].
      unfold index_le. lia.
Qed.

Lemma sort_by_index_sorted (l : list MapResult) :
  StronglySorted index_le (sort_by_index l).
Proof.
  induction l as [|x l IH]; simpl; [constructor|].
  now apply insert_by_index_sorted.
Qed.

Lemma elem_of_ordered_results (summaries : list string) (r : MapResult) :
  r ∈ ordered_results summaries ->
  exists i : nat, r.1 = Z.of_nat i + 1 /\ summaries !! i = Some r.2.
Proof.
  unfold ordered_results. intros (i & s & -> & Hs)%elem_of_lookup_imap.
  exists i. split; [reflexivity|exact Hs].
Qed.

Lemma ordered_results_sorted (summaries : list string) :
  StronglySorted index_le (ordered_results summaries).
Proof.
  unfold ordered_results.
  assert (H : forall (c : Z) l,
             StronglySorted index_le
               (imap (fun i s => (Z.of_nat i + c, s)) l)).
  { intros c l; revert c; induction l as [|s l IH]; intros c.
    - constructor.
    - rewrite imap_cons. constructor.
      + rewrite (imap_ext _ (fun i s => (Z.of_nat i + (c + 1), s)))
          by (intros i x _; simpl; f_equal; lia).
        apply IH.
      + apply Forall_forall. intros r (i & x & -> & _)%elem_of_lookup_imap.
        unfold index_le. simpl. lia. }
  apply H.
Qed.

(** In whatever order the MapResults arrive, sorting them by index gives
    them back in batch order. *)
Lemma sort_by_index_restores (summaries : list string)
    (arrived : list MapResult) :
  arrived ≡ₚ ordered_results summaries ->
  sort_by_index arrived = ordered_results summaries.
Proof.
  intros Hperm.
  apply (StronglySorted_unique_strong index_le).
  - intros x1 x2 H1 H2 H12 H21.
    rewrite sort_by_index_perm, Hperm in H1.
    apply elem_of_ordered_results in H1 as (i1 & Hi1 & Hs1).
    apply elem_of_ordered_results in H2 as (i2 & Hi2 & Hs2).
    unfold index_le in *.
    assert (i1 = i2) by lia. subst i2.
    destruct x1, x2; simpl in *. f_equal; [lia|congruence].
  - apply sort_by_index_sorted.
  - apply ordered_results_sorted.
  - now rewrite sort_by_index_perm.
Qed.

Lemma map_snd_ordered_results (summaries : list string) :
  map snd (ordered_results summaries) = summaries.
Proof.
  unfold ordered_results. rewrite map_imap. simpl.
  rewrite imap_ignore_index. apply map_id.
Qed.

(** ** Orchestrator *)

Lemma group_chunks_default (chunks : list string) :
  group_chunks chunks 7 = Return (default_batches chunks).
Proof. reflexivity. Qed.

Lemma reduce_phase_returns (B : backend) (prompt : string) :
  reduce_phase B prompt = (Return (reduce_outcome B prompt), [SyncCall prompt]).
Proof.
  unfold reduce_phase, reduce_outcome, call_generate_content, try_except,
    bind, lift, ret.
  destruct (generate_content B prompt) as [[[t|e]]|e]; reflexivity.
Qed.

Lemma gather_map_tasks (B : backend) (sched : list nat)
    (batches : list string) (query : option string) :
  gather sched (map_tasks B batches query)
  = (Return (ordered_results (batch_summaries B batches query)),
     map_calls batches query).
Proof.
  rewrite (gather_all_return sched _ _ (map_tasks_values B batches query)).
  now rewrite map_tasks_calls.
Qed.

Lemma individual_summaries_restores (summaries : list string)
    (arrived : list MapResult) :
  arrived ≡ₚ ordered_results summaries ->
  individual_summaries arrived = summaries.
Proof.
  intros Hperm. unfold individual_summaries.
  rewrite (sort_by_index_restores summaries arrived Hperm).
  apply map_snd_ordered_results.
Qed.

(** A run never raises: it calls the backend once per batch, then once for
    the reduce prompt built from the summaries in batch order, whatever the
    schedule. *)
Lemma summarize_from_content_chunks_returns (B : backend) (sched : list nat)
    (chunks : list string) (query : option string) :
  summarize_from_content_chunks B sched chunks query
  = (Return (reduce_outcome B
               (run_reduce_prompt B (default_batches chunks) query)),
     (map_calls (default_batches chunks) query
      ++ [SyncCall (run_reduce_prompt B (default_batches chunks) query)])%list).
Proof.
  unfold summarize_from_content_chunks.
  rewrite group_chunks_default. unfold lift.
  cbn [bind]. rewrite gather_map_tasks. cbn [bind].
  rewrite (individual_summaries_restores _ _ (Permutation_refl _)).
  rewrite reduce_phase_returns. reflexivity.
Qed.

(** C1: the map phase hands the summaries to the reduce phase in batch
    order.  In whatever order the MapResults arrive (any permutation of
    them), sorting by index and extracting gives the summaries in batch
    order, the Nth batch's summary at position N; and under every
    completion schedule the run builds its reduce prompt from the summaries
    joined in that order. *)
Theorem map_phase_restores_batch_order
    (B : backend) (chunks batches : list string) (query : option string) :
  group_chunks chunks 7 = Return batches ->
  (forall arrived : list MapResult,
      arrived ≡ₚ ordered_results (batch_summaries B batches query) ->
      individual_summaries arrived = batch_summaries B batches query)
  /\ (forall (N : nat) (batch : string),
        batches !! N = Some batch ->
        batch_summaries B batches query !! N
        = Some (worker_summary B batch (Z.of_nat N + 1) query))
  /\ (forall sched : list nat,
        value (gather sched (map_tasks B batches query))
        = Return (ordered_results (batch_summaries B batches query))
        /\ calls (summarize_from_content_chunks B sched chunks query)
           = (map_calls batches query
              ++ [SyncCall
                    (reduce_prompt
                       (join summary_separator
                             (batch_summaries B batches query))
                       query)])%list).
Proof.
  rewrite group_chunks_default. intros [= <-].
  split; [|split].
  - intros arrived. apply individual_summaries_restores.
  - intros N batch HN. unfold batch_summaries.
    rewrite list_lookup_imap, HN. reflexivity.
  - intros sched. rewrite gather_map_tasks.
    rewrite summarize_from_content_chunks_returns. split; reflexivity.
Qed.

Lemma map_phase_restores_batch_order_witness :
  let batches := default_batches eight_chunks in
  let results := ordered_results (batch_summaries answering_backend batches None) in
  length batches = 2%nat
  /\ individual_summaries (rev results)
     = batch_summaries answering_backend batches None.
Proof.
  split; [reflexivity|].
  destruct (map_phase_restores_batch_order answering_backend eight_chunks
              (default_batches eight_chunks) None) as (H & _).
  - reflexivity.
  - apply H. symmetry. apply Permutation_rev.
Defined.

(** ** Query and no query *)




(** ** Failures *)

(** C2: when the backend call of a worker fails (it raises, or its
    response has no text), the worker raises nothing and returns its own
    index with the text "[Failed to summarize batch <index>]", the index
    written in decimal.  So the map phase of a run whose
    Nth batch fails still gathers one result per batch, the failed one at
    its place, and the run goes on to its reduce call and returns. *)
Theorem failed_worker_returns_placeholder
    (B : backend) (batch_content : string) (index : Z)
    (query : option string) :
  call_failed (generate_content_async B (map_prompt batch_content query))
  = true ->
  summarize_batch_async B batch_content index query
  = (Return (index, "[Failed to summarize batch " +:+ pretty index +:+ "]"),
     [AsyncCall (map_prompt batch_content query)])
  /\ (forall (sched : list nat) (chunks batches : list string) (N : nat),
        group_chunks chunks 7 = Return batches ->
        batches !! N = Some batch_content ->
        exists map_results : list MapResult,
          value (gather sched (map_tasks B batches query))
          = Return map_results
          /\ length map_results = length batches
          /\ map_results !! N
             = Some (Z.of_nat N + 1,
                     "[Failed to summarize batch "
                     +:+ pretty (Z.of_nat N + 1) +:+ "]")
          /\ exists final : string,
               summarize_from_content_chunks B sched chunks query
               = (Return final,
                  (map_calls batches query
                   ++ [SyncCall (run_reduce_prompt B batches query)])%list)).
Proof.
  intros Hfail.
  change ("[Failed to summarize batch " +:+ pretty index +:+ "]")
    with (failed_placeholder index).
  assert (Hsum : forall i, worker_summary B batch_content i query
                           = failed_placeholder i).
  { intros i. unfold worker_summary, call_text.
    unfold call_failed in Hfail.
    destruct (generate_content_async B (map_prompt batch_content query))
      as [[[t|e]]|e]; simpl in *; congruence. }
  split.
  - rewrite summarize_batch_async_returns, Hsum. reflexivity.
  - intros sched chunks batches N. rewrite group_chunks_default.
    intros [= <-] HN.
    exists (ordered_results
              (batch_summaries B (default_batches chunks) query)).
    rewrite gather_map_tasks. split; [reflexivity|]. split; [|split].
    + unfold ordered_results. now rewrite length_imap, length_batch_summaries.
    + unfold ordered_results, batch_summaries.
      rewrite !list_lookup_imap, HN. simpl. rewrite Hsum. reflexivity.
    + eexists. apply summarize_from_content_chunks_returns.
Qed.

Lemma failed_worker_returns_placeholder_witness :
  summarize_batch_async map_failing_backend "a batch" 3 None
  = (Return (3, "[Failed to summarize batch 3]"),
     [AsyncCall (map_prompt "a batch" None)])
  /\ summarize_batch_async map_failing_backend "another" 12 (Some "Why?")
     = (Return (12, "[Failed to summarize batch 12]"),
        [AsyncCall (map_prompt "another" (Some "Why?"))]).
Proof.
  split.
  - destruct (failed_worker_returns_placeholder map_failing_backend
                "a batch" 3 None) as (H & _).
    + reflexivity.
    + exact H.
  - destruct (failed_worker_returns_placeholder map_failing_backend
                "another" 12 (Some "Why?")) as (H & _).
    + reflexivity.
    + exact H.
Defined.

(** C6: when the reduce call fails (it raises, or its response has no
    text), the run raises nothing: what it returns is the error prefix
    followed by the text of the exception, and nothing else; that string
    passes the test the HTTP layer makes on it. *)
Theorem reduce_failure_returns_error_string
    (B : backend) (sched : list nat) (chunks batches : list string)
    (query : option string) (e : exn) :
  group_chunks chunks 7 = Return batches ->
  call_error (generate_content B (run_reduce_prompt B batches query))
  = Some e ->
  value (summarize_from_content_chunks B sched chunks query)
  = Return ("An error occurred during the Reduce phase: " +:+ exn_str e)
  /\ startswith "An error occurred"
                ("An error occurred during the Reduce phase: " +:+ exn_str e)
     = true.
Proof.
  rewrite group_chunks_default. intros [= <-] Herr.
  split; [|reflexivity].
  rewrite summarize_from_content_chunks_returns.
  unfold reduce_outcome, value. unfold call_error in Herr.
  destruct (generate_content B
              (run_reduce_prompt B (default_batches chunks) query))
    as [[[t|e']]|e']; cbn in Herr;
    first [discriminate Herr | injection Herr as ->; reflexivity].
Qed.

Lemma reduce_failure_returns_error_string_witness :
  value (summarize_from_content_chunks failing_backend [1%nat; 0%nat]
           eight_chunks (Some "What is the budget?"))
  = Return ("An error occurred during the Reduce phase: "
            +:+ "503 The service is unavailable").
Proof.
  destruct (reduce_failure_returns_error_string failing_backend
              [1%nat; 0%nat] eight_chunks (default_batches eight_chunks)
              (Some "What is the budget?") unavailable) as (H & _).
  - reflexivity.
  - reflexivity.
  - exact H.
Defined.

(** C10: an empty chunk list is not a special case.  There is no batch and
    no worker, yet the reduce call is made, once, the only backend call of
    the run, with the prompt built around an empty block of summaries; the
    run returns the trimmed text of that call, or the error string when it
    failed. *)
Theorem empty_chunks_still_reduce
    (B : backend) (sched : list nat) (query : option string) :
  group_chunks [] 7 = Return []
  /\ map_tasks B [] query = []
  /\ join summary_separator (individual_summaries []) = EmptyString
  /\ summarize_from_content_chunks B sched [] query
     = (match generate_content B (reduce_prompt EmptyString query) with
        | Raise e => Return (reduce_error_prefix +:+ exn_str e)
        | Return resp =>
            match text resp with
            | Raise e => Return (reduce_error_prefix +:+ exn_str e)
            | Return t => Return (strip t)
            end
        end,
        [SyncCall (reduce_prompt EmptyString query)]).
Proof.
  split; [reflexivity|]. split; [reflexivity|]. split; [reflexivity|].
  rewrite summarize_from_content_chunks_returns.
  change (default_batches []) with (@nil string).
  unfold run_reduce_prompt, reduce_outcome. cbn [batch_summaries imap join].
  cbn [map_calls map app].
  destruct (generate_content B (reduce_prompt EmptyString query))
    as [[[t|e]]|e]; reflexivity.
Qed.

(** ** File entry point *)

(** A raise of [summarize_from_file] comes before any backend call. *)
Lemma summarize_from_file_raise_no_call (env : environment) (B : backend)
    (sched : list nat) (file_path : string) (query : option string) (e : exn) :
  value (summarize_from_file env B sched file_path query) = Raise e ->
  calls (summarize_from_file env B sched file_path query) = [].
Proof.
  unfold summarize_from_file, try_except_file, bind, lift, ret, value, calls.
  destruct (open_read env file_path) as [f|e1]; cbn -[summarize_from_content_chunks as_strings].
  2: { destruct (exn_cls e1); cbn -[summarize_from_content_chunks as_strings]; intros H; first [reflexivity|discriminate H]. }
  destruct (json_load env f) as [data|e2]; cbn -[summarize_from_content_chunks as_strings].
  2: { destruct (exn_cls e2); cbn -[summarize_from_content_chunks as_strings]; intros H; first [reflexivity|discriminate H]. }
  destruct (py_get data "data" (JArray [])) as [records|e3]; cbn -[summarize_from_content_chunks as_strings].
  2: { destruct (exn_cls e3); cbn -[summarize_from_content_chunks as_strings]; intros H; first [reflexivity|discriminate H]. }
  destruct (py_iter records) as [items|e4]; cbn -[summarize_from_content_chunks as_strings].
  2: { destruct (exn_cls e4); cbn -[summarize_from_content_chunks as_strings]; intros H; first [reflexivity|discriminate H]. }
  destruct (contents_of items) as [[|c cs]|e5]; cbn -[summarize_from_content_chunks as_strings].
  3: { destruct (exn_cls e5); cbn -[summarize_from_content_chunks as_strings]; intros H; first [reflexivity|discriminate H]. }
  - intros H; discriminate H.
  - destruct (as_strings 0 (c :: cs)) as [chunks|e6]; cbn -[summarize_from_content_chunks as_strings].
    + rewrite summarize_from_content_chunks_returns. intros H; discriminate H.
    + intros _. reflexivity.
Qed.

(** The comprehension over the records stops at the first item that is no
    object, with the AttributeError of its missing [get]. *)
Lemma contents_of_first_non_object (records : list (list (string * json)))
    (item : json) (rest : list json) :
  is_object item = false ->
  contents_of (map JObject records ++ item :: rest)
  = Raise (no_attribute_get item).
Proof.
  intros Hitem. induction records as [|rec records IH].
  - destruct item; first [discriminate Hitem | reflexivity].
  - cbn [map app contents_of py_get]. cbn [map] in IH. rewrite IH.
    reflexivity.
Qed.

(** C7, as the code has it.  When the file is missing, when its text is not
    JSON, or when it is a JSON object whose [data] field has no item to
    iterate over, [summarize_from_file] raises nothing, returns a message
    saying so (the error prefix followed by the text of the exception, or
    the no-content message), and makes no backend call.  Every other input
    failure raises instead of returning a string: a read or parse error of
    another class (a permission error, say), a parsed value that is not an
    object, a [data] field that is not iterable, an item of [data] that is
    not an object each make [summarize_from_file] raise that very
    exception.  Whatever it raises, it raises before any backend call. *)
Theorem summarize_from_file_input_failure
    (env : environment) (B : backend) (sched : list nat)
    (file_path : string) (query : option string) :
  (forall message : string,
      input_failure env file_path message ->
      summarize_from_file env B sched file_path query = (Return message, []))
  /\ (forall e : exn,
        input_raises env file_path e ->
        summarize_from_file env B sched file_path query = (Raise e, []))
  /\ (forall e : exn,
        value (summarize_from_file env B sched file_path query) = Raise e ->
        calls (summarize_from_file env B sched file_path query) = []).
Proof.
  split; [|split].
  - unfold summarize_from_file, try_except_file, bind, lift, ret, handled.
    intros message
      [(e & -> & He & ->)|[(f & e & -> & -> & He & ->)
                          |(f & fields & -> & -> & Hiter & ->)]].
    + unfold handled in He.
      destruct (exn_cls e); first [discriminate He|reflexivity].
    + unfold handled in He.
      destruct (exn_cls e); first [discriminate He|reflexivity].
    + cbn [py_get]. rewrite Hiter. reflexivity.
  - unfold summarize_from_file, try_except_file, bind, lift, ret, handled.
    intros e
      [(-> & He)
      |[(f & -> & -> & He)
       |[(f & data & -> & -> & Hdata & ->)
        |[(f & fields & -> & -> & Hiter & ->)
         |(f & fields & records & item & rest & -> & -> & Hiter & Hitem & ->)]]]].
    + unfold handled in He.
      destruct (exn_cls e); first [discriminate He|reflexivity].
    + unfold handled in He.
      destruct (exn_cls e); first [discriminate He|reflexivity].
    + destruct data; first [discriminate Hdata|reflexivity].
    + cbn [py_get].
      destruct (dict_get fields "data" (JArray []));
        first [discriminate Hiter|reflexivity].
    + cbn [py_get]. rewrite Hiter.
      rewrite (contents_of_first_non_object records item rest Hitem).
      reflexivity.
  - intros e. apply summarize_from_file_raise_no_call.
Qed.

Lemma summarize_from_file_input_failure_witness :
  summarize_from_file sample_env answering_backend [] "missing.json" None
  = (Return ("Error reading or parsing the file: "
             +:+ "[Errno 2] No such file or directory: 'missing.json'"),
     [])
  /\ summarize_from_file sample_env answering_backend [] "broken.json" None
     = (Return ("Error reading or parsing the file: "
                +:+ "Expecting property name enclosed in double quotes: line 1 column 2 (char 1)"),
        [])
  /\ summarize_from_file sample_env answering_backend [] "empty.json" None
     = (Return "No 'content' data found in the file.", [])
  /\ summarize_from_file sample_env answering_backend [] "locked.json" None
     = (Raise permission_denied, [])
  /\ summarize_from_file sample_env answering_backend [] "list.json" None
     = (Raise (Exn AttributeError "'list' object has no attribute 'get'"), [])
  /\ summarize_from_file documents_env answering_backend [] "list.json" None
     = (Raise (Exn AttributeError "'list' object has no attribute 'get'"), [])
  /\ summarize_from_file records_env answering_backend [] "null.json" None
     = (Raise (Exn TypeError "'NoneType' object is not iterable"), [])
  /\ summarize_from_file records_env answering_backend [] "mixed.json" None
     = (Raise (Exn AttributeError "'int' object has no attribute 'get'"), []).
Proof.
  split; [|split; [|split; [|split; [|split; [|split; [|split]]]]]].
  - apply (summarize_from_file_input_failure sample_env answering_backend []).
    left. eexists. repeat split; reflexivity.
  - apply (summarize_from_file_input_failure sample_env answering_backend []).
    right; left. do 2 eexists. repeat split; reflexivity.
  - apply (summarize_from_file_input_failure sample_env answering_backend []).
    right; right. do 2 eexists. repeat split; reflexivity.
  - apply (summarize_from_file_input_failure sample_env answering_backend []).
    left. split; reflexivity.
  - apply (summarize_from_file_input_failure sample_env answering_backend []).
    right; right; left. do 2 eexists. repeat split; reflexivity.
  - apply (summarize_from_file_input_failure documents_env answering_backend []).
    right; right; left. do 2 eexists. repeat split; reflexivity.
  - apply (summarize_from_file_input_failure records_env answering_backend []).
    right; right; right; left. do 2 eexists. repeat split; reflexivity.
  - apply (summarize_from_file_input_failure records_env answering_backend []).
    right; right; right; right.
    exists "text of mixed.json", [("data", JArray [JObject [("content", JString "first")]; JInt 7; JObject []])],
      [[("content", JString "first")]], (JInt 7), [JObject []].
    repeat split; reflexivity.
Defined.

(** C7 as stated fails: a file that exists but cannot be read, and a file
    whose JSON is not an object, make [summarize_from_file] raise (still
    before any backend call). *)
Lemma summarize_from_file_raises_counterexample :
  summarize_from_file sample_env answering_backend [] "locked.json" None
  = (Raise permission_denied, [])
  /\ summarize_from_file sample_env answering_backend [] "list.json" None
     = (Raise (Exn AttributeError "'list' object has no attribute 'get'"), [])
  /\ ~ (exists message,
          value (summarize_from_file sample_env answering_backend []
                   "locked.json" None)
          = Return message).
Proof.
  split; [reflexivity|]. split; [reflexivity|].
  intros [message H]. discriminate H.
Qed.

(** * Further properties *)

(** ** Batcher: the content of the batches *)

Lemma range_up_lookup (s fuel start stop N : nat) :
  (N < fuel)%nat -> (start + N * s < stop)%nat ->
  range_up fuel start stop s !! N = Some (start + N * s)%nat.
Proof.
  revert start N; induction fuel as [|fuel IH]; intros start N Hfuel Hlt;
    [lia|].
  simpl. destruct (Nat.ltb_spec start stop) as [_|Hge]; [|lia].
  destruct N as [|N]; simpl.
  - f_equal. lia.
  - rewrite IH by lia. f_equal. lia.
Qed.

Lemma join_singletons (sep : string) (groups : list (list string)) :
  Forall (fun g => length g = 1%nat) groups ->
  map (join sep) groups = concat groups.
Proof.
  induction 1 as [|g groups Hg _ IH]; [reflexivity|].
  destruct g as [|c [|c' g]]; simpl in Hg; try lia.
  simpl. now rewrite IH.
Qed.

(** X1: the Nth batch (0-based) is the join of the chunks at positions
    [N * batch_size] to [N * batch_size + batch_size - 1], as far as the
    list goes. *)
Theorem group_chunks_nth_batch
    (chunks : list string) (batch_size : Z) (N : nat) :
  0 < batch_size ->
  (N * Z.to_nat batch_size < length chunks)%nat ->
  exists batches : list string,
    group_chunks chunks batch_size = Return batches
    /\ batches !! N
       = Some (join chunk_separator
                    (take (Z.to_nat batch_size)
                          (drop (N * Z.to_nat batch_size) chunks))).
Proof.
  intros Hpos HN. unfold group_chunks.
  rewrite chunk_groups_positive by exact Hpos.
  eexists; split; [reflexivity|].
  unfold groups_from.
  change (map ?f (map ?g ?l)) with (f <$> (g <$> l)).
  rewrite !list_lookup_fmap, range_up_lookup; [reflexivity| |lia].
  assert (0 < Z.to_nat batch_size)%nat by lia. nia.
Qed.

Lemma group_chunks_nth_batch_witness :
  exists batches : list string,
    group_chunks eight_chunks 3 = Return batches
    /\ batches !! 2%nat = Some (join chunk_separator ["g"; "h"]).
Proof.
  apply (group_chunks_nth_batch eight_chunks 3 2); [lia|simpl; lia].
Defined.

(** X2: a chunk list that fits in one batch comes back as one batch, the
    join of all its chunks. *)
Theorem group_chunks_single_batch (chunks : list string) (batch_size : Z) :
  chunks <> [] ->
  Z.of_nat (length chunks) <= batch_size ->
  group_chunks chunks batch_size = Return [join chunk_separator chunks].
Proof.
  intros Hne Hfit.
  assert (Hlen : (0 < length chunks)%nat).
  { destruct chunks; [congruence|simpl; lia]. }
  unfold group_chunks. rewrite chunk_groups_positive by lia.
  unfold groups_from. destruct (length chunks) as [|n] eqn:En; [lia|].
  simpl range_up. destruct n as [|n]; simpl.
  - unfold slice. rewrite drop_0, take_ge by lia. reflexivity.
  - destruct (Nat.ltb_spec (Z.to_nat batch_size) (S (S n))) as [?|_]; [lia|].
    unfold slice. rewrite drop_0, take_ge by lia. reflexivity.
Qed.

Lemma group_chunks_single_batch_witness :
  group_chunks ["a"; "b"; "c"] 7
  = Return [join chunk_separator ["a"; "b"; "c"]].
Proof.
  apply (group_chunks_single_batch ["a"; "b"; "c"] 7); [discriminate|simpl; lia].
Defined.

(** X3: with [batch_size = 1] every chunk is a batch of its own, unchanged:
    no separator is added. *)
Theorem group_chunks_batch_size_one (chunks : list string) :
  group_chunks chunks 1 = Return chunks.
Proof.
  unfold group_chunks. rewrite chunk_groups_positive by lia.
  f_equal. change (Z.to_nat 1) with 1%nat.
  rewrite join_singletons.
  - rewrite groups_from_concat by lia. apply drop_0.
  - eapply Forall_impl; [apply (groups_from_sizes chunks 1); lia|].
    simpl. intros g Hg. lia.
Qed.

(** ** Trimming *)

Lemma lstrip_unfold (s : string) :
  lstrip s = match space_head s with Some r => lstrip r | None => s end.
Proof.
  destruct s as [|c1 [|c2 [|c3 s3]]]; simpl; try reflexivity.
  - destruct (space1 c1); reflexivity.
  - destruct (space1 c1); [reflexivity|]. destruct (space2 c1 c2); reflexivity.
  - destruct (space1 c1); [reflexivity|]. destruct (space2 c1 c2);
      [reflexivity|]. destruct (space3 c1 c2 c3); reflexivity.
Qed.

Lemma all_space_unfold (s : string) :
  all_space s
  = match s with
    | EmptyString => true
    | String _ _ =>
        match space_head s with Some r => all_space r | None => false end
    end.
Proof.
  destruct s as [|c1 [|c2 [|c3 s3]]]; simpl; try reflexivity.
  - destruct (space1 c1); reflexivity.
  - destruct (space1 c1); [reflexivity|]. destruct (space2 c1 c2); reflexivity.
  - destruct (space1 c1); [reflexivity|]. destruct (space2 c1 c2);
      [reflexivity|]. destruct (space3 c1 c2 c3); reflexivity.
Qed.

(** A whitespace character at the start is a non-empty prefix that is
    recognised whatever follows it. *)
Lemma space_head_split (s r : string) :
  space_head s = Some r ->
  exists w, s = w +:+ r /\ w <> EmptyString
            /\ forall x, space_head (w +:+ x) = Some x.
Proof.
  destruct s as [|c1 s1]; simpl; [discriminate|].
  destruct (space1 c1) eqn:H1.
  { intros [= <-]. exists (String c1 EmptyString).
    split; [reflexivity|]. split; [discriminate|].
    intros x. rewrite append_cons, append_nil_l. simpl. now rewrite H1. }
  destruct s1 as [|c2 s2]; [discriminate|].
  destruct (space2 c1 c2) eqn:H2.
  { intros [= <-]. exists (String c1 (String c2 EmptyString)).
    split; [reflexivity|]. split; [discriminate|].
    intros x. rewrite !append_cons, append_nil_l. simpl. now rewrite H1, H2. }
  destruct s2 as [|c3 s3]; [discriminate|].
  destruct (space3 c1 c2 c3) eqn:H3; [|discriminate].
  intros [= <-]. exists (String c1 (String c2 (String c3 EmptyString))).
  split; [reflexivity|]. split; [discriminate|].
  intros x. rewrite !append_cons, append_nil_l. simpl. now rewrite H1, H2, H3.
Qed.

Lemma space_head_shorter (s r : string) :
  space_head s = Some r -> (String.length r < String.length s)%nat.
Proof.
  intros (w & -> & Hw & _)%space_head_split.
  rewrite length_append. destruct w; [congruence|simpl; lia].
Qed.

Lemma string_length_ind (P : string -> Prop) :
  (forall s, (forall r, (String.length r < String.length s)%nat -> P r) -> P s) ->
  forall s, P s.
Proof.
  intros Hstep.
  assert (H : forall n s, (String.length s < n)%nat -> P s).
  { induction n as [|n IH]; intros s Hs; [lia|].
    apply Hstep. intros r Hr. apply IH. lia. }
  intros s. apply (H (S (String.length s))). lia.
Qed.

Lemma all_space_cons_char (w lead : string) :
  w <> EmptyString ->
  (forall x, space_head (w +:+ x) = Some x) ->
  all_space lead = true -> all_space (w +:+ lead) = true.
Proof.
  intros Hw Hhead Hlead. rewrite all_space_unfold.
  destruct w as [|c w]; [congruence|]. rewrite append_cons.
  rewrite <- append_cons, Hhead. exact Hlead.
Qed.

Lemma lstrip_decompose (s : string) :
  exists lead, s = lead +:+ lstrip s /\ all_space lead = true.
Proof.
  induction s as [s IH] using string_length_ind.
  rewrite lstrip_unfold. destruct (space_head s) as [r|] eqn:Hs.
  - destruct (space_head_split s r Hs) as (w & -> & Hw & Hhead).
    destruct (IH r) as (lead & Hr & Hlead).
    { rewrite length_append. destruct w; [congruence|simpl; lia]. }
    exists (w +:+ lead). split.
    + rewrite append_assoc. now rewrite <- Hr.
    + now apply all_space_cons_char.
  - exists EmptyString. split; reflexivity.
Qed.

Lemma lstrip_no_lead (s : string) : starts_with_space (lstrip s) = false.
Proof.
  induction s as [s IH] using string_length_ind.
  rewrite lstrip_unfold. destruct (space_head s) as [r|] eqn:Hs.
  - apply IH. now apply space_head_shorter.
  - unfold starts_with_space. now rewrite Hs.
Qed.

Lemma rstrip_decompose (s : string) :
  exists trail, s = rstrip s +:+ trail /\ all_space trail = true.
Proof.
  induction s as [|c s (trail & Hs & Htrail)].
  - exists EmptyString. split; reflexivity.
  - cbn [rstrip]. destruct (all_space (String c s)) eqn:Hall.
    + exists (String c s). split; [reflexivity|exact Hall].
    + exists trail. split; [|exact Htrail].
      rewrite append_cons. now rewrite <- Hs.
Qed.

Lemma starts_with_space_append (p x : string) :
  starts_with_space p = true -> starts_with_space (p +:+ x) = true.
Proof.
  unfold starts_with_space. destruct (space_head p) as [r|] eqn:Hp;
    [|discriminate].
  intros _. destruct (space_head_split p r Hp) as (w & -> & _ & Hhead).
  rewrite append_assoc. now rewrite Hhead.
Qed.

Lemma rstrip_keeps_head (s : string) :
  starts_with_space s = false -> starts_with_space (rstrip s) = false.
Proof.
  intros Hs. destruct (rstrip_decompose s) as (trail & Hdec & _).
  destruct (starts_with_space (rstrip s)) eqn:Hr; [|reflexivity].
  apply (starts_with_space_append _ trail) in Hr.
  rewrite <- Hdec in Hr. congruence.
Qed.

Lemma rstrip_no_trail (s : string) : ends_with_space (rstrip s) = false.
Proof.
  induction s as [|c s IH]; [reflexivity|].
  cbn [rstrip]. destruct (all_space (String c s)) eqn:Hall; [reflexivity|].
  cbn [ends_with_space]. rewrite IH, orb_false_r.
  unfold one_space.
  destruct (space_head (String c (rstrip s))) as [[|d r]|] eqn:Hh;
    try reflexivity.
  destruct (space_head_split _ _ Hh) as (w & Hw & Hne & Hhead).
  rewrite append_empty_r in Hw.
  destruct (rstrip_decompose s) as (trail & Hdec & Htrail).
  assert (Hs : String c s = w +:+ trail).
  { rewrite <- Hw, append_cons. now rewrite <- Hdec. }
  rewrite Hs in Hall.
  rewrite (all_space_cons_char w trail Hne Hhead Htrail) in Hall.
  discriminate Hall.
Qed.

(** [strip] removes whitespace at both ends and nothing else: the text is
    some whitespace, then its stripped form, then some whitespace, and the
    stripped form neither starts nor ends with a whitespace character. *)
Lemma strip_trims_both_ends (s : string) :
  (exists lead trail,
      s = lead +:+ strip s +:+ trail
      /\ all_space lead = true /\ all_space trail = true)
  /\ starts_with_space (strip s) = false
  /\ ends_with_space (strip s) = false.
Proof.
  unfold strip.
  destruct (lstrip_decompose s) as (lead & Hs & Hlead).
  destruct (rstrip_decompose (lstrip s)) as (trail & Hl & Htrail).
  split; [|split].
  - exists lead, trail. split; [|split; assumption].
    rewrite <- Hl. exact Hs.
  - apply rstrip_keeps_head, lstrip_no_lead.
  - apply rstrip_no_trail.
Qed.

(** ** Map Worker and reduce phase: the success paths *)

(** X4: when its backend call answers with a text, the worker makes that
    one call and returns its index with the text trimmed: the summary is the
    text without the whitespace at its two ends, and nothing else is
    removed. *)
Theorem worker_success_returns_trimmed_text
    (B : backend) (batch_content : string) (index : Z)
    (query : option string) (t : string) :
  call_text (generate_content_async B (map_prompt batch_content query))
  = Some t ->
  exists summary lead trail : string,
    summarize_batch_async B batch_content index query
    = (Return (index, summary), [AsyncCall (map_prompt batch_content query)])
    /\ t = lead +:+ summary +:+ trail
    /\ all_space lead = true /\ all_space trail = true
    /\ starts_with_space summary = false
    /\ ends_with_space summary = false.
Proof.
  intros Ht.
  destruct (strip_trims_both_ends t)
    as ((lead & trail & Hdec & Hlead & Htrail) & Hhead & Hend).
  exists (strip t), lead, trail.
  rewrite summarize_batch_async_returns.
  unfold worker_summary. rewrite Ht. repeat split; assumption.
Qed.

Lemma worker_success_returns_trimmed_text_witness :
  exists summary lead trail : string,
    summarize_batch_async answering_backend "a batch" 2 (Some "Why?")
    = (Return (2, summary), [AsyncCall (map_prompt "a batch" (Some "Why?"))])
    /\ map_prompt "a batch" (Some "Why?") = lead +:+ summary +:+ trail
    /\ all_space lead = true /\ all_space trail = true
    /\ starts_with_space summary = false
    /\ ends_with_space summary = false.
Proof.
  apply (worker_success_returns_trimmed_text answering_backend "a batch" 2
           (Some "Why?") (map_prompt "a batch" (Some "Why?"))).
  reflexivity.
Defined.

(** ** Orchestrator: calls, schedules, failures *)

Lemma length_default_batches (chunks : list string) :
  Z.of_nat (length (default_batches chunks))
  = ceil_div (Z.of_nat (length chunks)) 7.
Proof.
  unfold default_batches. rewrite length_map.
  pose proof (groups_from_count chunks 7 ltac:(lia)
                (length chunks) 0%nat ltac:(lia)) as [Hlo Hhi].
  simpl in Hlo, Hhi. rewrite Nat.sub_0_r in Hlo, Hhi.
  set (n := length (groups_from chunks 7 (length chunks) 0)) in *.
  unfold ceil_div.
  assert (Hq : - Z.of_nat (length chunks) / 7 = - Z.of_nat n).
  { symmetry.
    apply (Z.div_unique_pos _ _ _
             (Z.of_nat n * 7 - Z.of_nat (length chunks))); lia. }
  lia.
Qed.

(** X5: a run never raises, and it calls the backend once per batch and
    then once more: the asynchronous map calls, ceil(len(chunks) / 7) of
    them, come first and the single synchronous reduce call is the last
    call made, whatever the backend answers. *)
Theorem run_returns_with_one_call_per_batch_plus_one
    (B : backend) (sched : list nat) (chunks : list string)
    (query : option string) :
  exists (final : string) (map_prompts : list string) (last_prompt : string),
    summarize_from_content_chunks B sched chunks query
    = (Return final,
       (map AsyncCall map_prompts ++ [SyncCall last_prompt])%list)
    /\ Z.of_nat (length map_prompts)
       = ceil_div (Z.of_nat (length chunks)) 7
    /\ Z.of_nat (length (calls (summarize_from_content_chunks
                                  B sched chunks query)))
       = ceil_div (Z.of_nat (length chunks)) 7 + 1.
Proof.
  rewrite summarize_from_content_chunks_returns.
  exists (reduce_outcome B (run_reduce_prompt B (default_batches chunks) query)),
    (map (fun batch => map_prompt batch query) (default_batches chunks)),
    (run_reduce_prompt B (default_batches chunks) query).
  split; [|split].
  - unfold map_calls. now rewrite map_map.
  - rewrite length_map. apply length_default_batches.
  - unfold calls, map_calls. simpl.
    rewrite length_app, length_map. simpl.
    rewrite <- length_default_batches. lia.
Qed.

(** X6: the order in which the map workers complete changes neither what
    a run returns nor the calls it makes. *)
Theorem run_independent_of_schedule
    (B : backend) (sched sched' : list nat) (chunks : list string)
    (query : option string) :
  summarize_from_content_chunks B sched chunks query
  = summarize_from_content_chunks B sched' chunks query.
Proof. now rewrite !summarize_from_content_chunks_returns. Qed.

Lemma imap_index_only {A B : Type} (h : nat -> B) (l : list A) (k : nat) :
  imap (fun i _ => h (k + i)%nat) l = map h (seq k (length l)).
Proof.
  revert k; induction l as [|x l IH]; intros k; [reflexivity|].
  rewrite imap_cons. simpl. rewrite Nat.add_0_r. f_equal.
  rewrite <- IH. apply imap_ext. intros i y _. simpl. f_equal. lia.
Qed.

(** X7: when every map call fails, the run still makes its reduce call and
    returns; the summaries it hands to the reduce prompt are the placeholders
    of batches 1, 2, ..., in that order. *)
Theorem run_with_all_workers_failed
    (B : backend) (sched : list nat) (chunks : list string)
    (query : option string) :
  (forall prompt, call_failed (generate_content_async B prompt) = true) ->
  exists (final : string) (batches : list string),
    group_chunks chunks 7 = Return batches
    /\ summarize_from_content_chunks B sched chunks query
       = (Return final,
          (map_calls batches query
           ++ [SyncCall
                 (reduce_prompt
                    (join summary_separator
                       (map (fun i => failed_placeholder (Z.of_nat i + 1))
                            (seq 0 (length batches))))
                    query)])%list).
Proof.
  intros Hfail.
  exists (reduce_outcome B (run_reduce_prompt B (default_batches chunks) query)),
    (default_batches chunks).
  split; [apply group_chunks_default|].
  rewrite summarize_from_content_chunks_returns. do 4 f_equal.
  unfold run_reduce_prompt. do 2 f_equal.
  unfold batch_summaries.
  rewrite <- (imap_index_only (fun i => failed_placeholder (Z.of_nat i + 1))
               (default_batches chunks) 0).
  apply imap_ext. intros i batch _. simpl.
  unfold worker_summary, call_text.
  specialize (Hfail (map_prompt batch query)). unfold call_failed in Hfail.
  destruct (generate_content_async B (map_prompt batch query))
    as [[[t|e]]|e]; simpl in *; congruence.
Qed.

Lemma run_with_all_workers_failed_witness :
  exists (final : string) (batches : list string),
    group_chunks eight_chunks 7 = Return batches
    /\ summarize_from_content_chunks map_failing_backend [] eight_chunks None
       = (Return final,
          (map_calls batches None
           ++ [SyncCall
                 (reduce_prompt
                    (join summary_separator
                       (map (fun i => failed_placeholder (Z.of_nat i + 1))
                            (seq 0 (length batches))))
                    None)])%list).
Proof.
  apply (run_with_all_workers_failed map_failing_backend [] eight_chunks None).
  intros prompt. reflexivity.
Defined.

(** X8: when the reduce call answers with a text, the run returns that
    text trimmed, whether or not map workers failed. *)
Theorem run_returns_trimmed_reduce_answer
    (B : backend) (sched : list nat) (chunks batches : list string)
    (query : option string) (t : string) :
  group_chunks chunks 7 = Return batches ->
  call_text (generate_content B (run_reduce_prompt B batches query))
  = Some t ->
  value (summarize_from_content_chunks B sched chunks query)
  = Return (strip t).
Proof.
  rewrite group_chunks_default. intros [= <-] Ht.
  rewrite summarize_from_content_chunks_returns.
  unfold value, reduce_outcome. unfold call_text in Ht. simpl.
  destruct (generate_content B
              (run_reduce_prompt B (default_batches chunks) query))
    as [[[t'|e]]|e]; cbn in Ht;
    first [discriminate Ht | injection Ht as ->; reflexivity].
Qed.

Lemma run_returns_trimmed_reduce_answer_witness :
  value (summarize_from_content_chunks map_failing_backend [] eight_chunks None)
  = Return "the final text".
Proof.
  apply (run_returns_trimmed_reduce_answer map_failing_backend []
           eight_chunks (default_batches eight_chunks) None " the final text ");
    reflexivity.
Defined.

(** ** File entry point: well-formed and ill-formed documents *)

Lemma contents_of_records (recs : list (list (string * json)))
    (chunks : list string) :
  Forall2 (fun rec chunk =>
             dict_get rec "content" (JString EmptyString) = JString chunk)
          recs chunks ->
  contents_of (map JObject recs) = Return (map JString chunks).
Proof.
  induction 1 as [|rec chunk recs chunks Hrec _ IH]; [reflexivity|].
  simpl. rewrite Hrec. simpl in IH. rewrite IH. reflexivity.
Qed.

Lemma as_strings_all (pos : nat) (chunks : list string) :
  as_strings pos (map JString chunks) = Return chunks.
Proof.
  revert pos; induction chunks as [|c chunks IH]; intros pos; [reflexivity|].
  simpl. now rewrite IH.
Qed.

Lemma as_strings_first_other (pos : nat) (before : list string) (v : json)
    (rest : list json) :
  type_name v <> "str" ->
  as_strings pos (map JString before ++ v :: rest)
  = Raise (Exn TypeError
               ("sequence item " +:+ pretty ((pos + length before) `mod` 7)%nat
                +:+ ": expected str instance, " +:+ type_name v +:+ " found")).
Proof.
  intros Hv. revert pos; induction before as [|c before IH]; intros pos.
  - simpl. rewrite Nat.add_0_r. destruct v; try reflexivity.
    simpl in Hv. congruence.
  - simpl. rewrite IH.
    replace (S pos + length before)%nat with (pos + S (length before))%nat
      by lia.
    reflexivity.
Qed.

(** X9: a document that is an object whose [data] field lists at least one
    record, each record an object whose [content] is a string or is absent,
    is summarized as the list of those contents, an absent [content]
    counting as an empty chunk: [summarize_from_file] returns what
    [summarize_from_content_chunks] returns on them, with the same calls. *)
Theorem summarize_from_file_delegates
    (env : environment) (B : backend) (sched : list nat)
    (file_path f : string) (query : option string)
    (fields : list (string * json)) (recs : list (list (string * json)))
    (chunks : list string) :
  open_read env file_path = Return f ->
  json_load env f = Return (JObject fields) ->
  dict_get fields "data" (JArray []) = JArray (map JObject recs) ->
  recs <> [] ->
  Forall2 (fun rec chunk =>
             dict_get rec "content" (JString EmptyString) = JString chunk)
          recs chunks ->
  summarize_from_file env B sched file_path query
  = summarize_from_content_chunks B sched chunks query.
Proof.
  intros Hopen Hload Hdata Hne Hrecs.
  unfold summarize_from_file, try_except_file, bind, lift, ret.
  rewrite Hopen, Hload. cbn [py_get]. rewrite Hdata. cbn [py_iter].
  rewrite (contents_of_records recs chunks Hrecs).
  destruct chunks as [|c chunks].
  - inversion Hrecs; subst; congruence.
  - cbn -[summarize_from_content_chunks as_strings].
    pose proof (as_strings_all 0 (c :: chunks)) as Hall.
    cbn [map] in Hall. rewrite Hall.
    destruct (summarize_from_content_chunks B sched (c :: chunks) query)
      as [r t]. reflexivity.
Qed.

(** X10: a record whose [content] is not a string makes
    [summarize_from_file] raise the TypeError of the join that meets it,
    naming the item's position in its batch of 7 and its type; no backend
    call is made, even for the batches before it. *)
Theorem summarize_from_file_non_string_content
    (env : environment) (B : backend) (sched : list nat)
    (file_path f : string) (query : option string)
    (fields : list (string * json))
    (before : list string) (v : json) (rest : list json)
    (items : list json) :
  open_read env file_path = Return f ->
  json_load env f = Return (JObject fields) ->
  dict_get fields "data" (JArray []) = JArray items ->
  contents_of items = Return (map JString before ++ v :: rest)%list ->
  type_name v <> "str" ->
  summarize_from_file env B sched file_path query
  = (Raise (Exn TypeError
                ("sequence item " +:+ pretty (length before `mod` 7)%nat
                 +:+ ": expected str instance, " +:+ type_name v
                 +:+ " found")),
     []).
Proof.
  intros Hopen Hload Hdata Hitems Hv.
  unfold summarize_from_file, try_except_file, bind, lift, ret.
  rewrite Hopen, Hload. cbn [py_get]. rewrite Hdata. cbn [py_iter].
  rewrite Hitems.
  destruct (map JString before ++ v :: rest)%list as [|c cs] eqn:Hcs.
  - destruct before; discriminate Hcs.
  - cbn -[summarize_from_content_chunks as_strings].
    rewrite <- Hcs, (as_strings_first_other 0 before v rest Hv).
    reflexivity.
Qed.

(** X12: a document whose top-level value is not an object makes
    [summarize_from_file] raise the AttributeError of the missing [get],
    before any backend call. *)
Theorem summarize_from_file_not_an_object
    (env : environment) (B : backend) (sched : list nat)
    (file_path f : string) (query : option string) (data : json) :
  open_read env file_path = Return f ->
  json_load env f = Return data ->
  type_name data <> "dict" ->
  summarize_from_file env B sched file_path query
  = (Raise (Exn AttributeError
                ("'" +:+ type_name data +:+ "' object has no attribute 'get'")),
     []).
Proof.
  intros Hopen Hload Hdata.
  unfold summarize_from_file, try_except_file, bind, lift, ret.
  rewrite Hopen, Hload.
  destruct data; try reflexivity. simpl in Hdata. congruence.
Qed.

Lemma summarize_from_file_delegates_witness :
  summarize_from_file documents_env answering_backend [] "two.json" None
  = summarize_from_content_chunks answering_backend [] ["first"; EmptyString]
      None.
Proof.
  apply (summarize_from_file_delegates documents_env answering_backend []
           "two.json" "text of two.json" None
           [("success", JBool true);
            ("data", JArray [JObject [("content", JString "first")];
                             JObject [("score", JInt 3)]])]
           [[("content", JString "first")]; [("score", JInt 3)]]
           ["first"; EmptyString]).
  - reflexivity.
  - reflexivity.
  - reflexivity.
  - discriminate.
  - repeat constructor.
Defined.

Lemma summarize_from_file_non_string_content_witness :
  summarize_from_file documents_env answering_backend [] "number.json" None
  = (Raise (Exn TypeError
                "sequence item 1: expected str instance, int found"),
     []).
Proof.
  apply (summarize_from_file_non_string_content documents_env
           answering_backend [] "number.json" "text of number.json" None
           [("data", JArray [JObject [("content", JString "first")];
                             JObject [("content", JInt 5)]])]
           ["first"] (JInt 5) []
           [JObject [("content", JString "first")];
            JObject [("content", JInt 5)]]).
  - reflexivity.
  - reflexivity.
  - reflexivity.
  - reflexivity.
  - discriminate.
Defined.

Lemma summarize_from_file_not_an_object_witness :
  summarize_from_file documents_env answering_backend [] "list.json" None
  = (Raise (Exn AttributeError "'list' object has no attribute 'get'"), []).
Proof.
  apply (summarize_from_file_not_an_object documents_env answering_backend []
           "list.json" "text of list.json" None (JArray [JInt 1])).
  - reflexivity.
  - reflexivity.
  - discriminate.
Defined.

(** X11: whenever [summarize_from_file] raises, it has made no backend
    call: every exception it lets through comes from reading the document,
    never from the run. *)
Theorem summarize_from_file_raises_before_any_call
    (env : environment) (B : backend) (sched : list nat)
    (file_path : string) (query : option string) (e : exn) :
  value (summarize_from_file env B sched file_path query) = Raise e ->
  calls (summarize_from_file env B sched file_path query) = [].
Proof. apply summarize_from_file_raise_no_call. Qed.

Lemma summarize_from_file_raises_before_any_call_witness :
  calls (summarize_from_file documents_env answering_backend []
           "number.json" None)
  = [].
Proof.
  apply (summarize_from_file_raises_before_any_call documents_env
           answering_backend [] "number.json" None
           (Exn TypeError "sequence item 1: expected str instance, int found")).
  reflexivity.
Defined.

(** ** HTTP layer *)

Lemma summarize_from_file_parse_error (env : environment) (B : backend)
    (sched : list nat) (file_path f : string) (query : option string)
    (e : exn) :
  open_read env file_path = Return f ->
  json_load env f = Raise e ->
  handled e = true ->
  summarize_from_file env B sched file_path query
  = (Return (file_error_prefix +:+ exn_str e), []).
Proof.
  intros Hopen Hload He.
  unfold summarize_from_file, try_except_file, bind, lift, ret.
  rewrite Hopen, Hload. unfold handled in He.
  destruct (exn_cls e); first [discriminate He|reflexivity].
Qed.

Section http.
Variable str_http : nat -> string -> string.
Variable json_load : string -> result json.
Variable write_error : string -> option exn.

(** X13: a request with no chunk does not get the 400 the handler raises
    for it: that exception is caught by the handler's own
    [except Exception], and the client gets a 500 whose detail wraps it.
    No backend call is made. *)
Theorem json_body_empty_data_is_500
    (B : backend) (sched : list nat) (request_data : ApiServer.InputModel) :
  ApiServer.data request_data = [] ->
  ApiServer.summarize_via_json_body str_http B sched request_data
  = (ApiServer.Failed 500
       ("An internal server error occurred: "
        +:+ str_http 400 "No 'content' data found in JSON body"),
     []).
Proof.
  intros Hdata. unfold ApiServer.summarize_via_json_body.
  rewrite Hdata. reflexivity.
Qed.

(** X14: with at least one chunk the handler answers from the run's text
    alone: a text that begins with "An error occurred" becomes a 500 whose
    detail wraps it, whether it is the reduce-failure string or an answer
    of the backend; any other text is returned as the summary, with the
    query echoed.  The backend calls are those of the run. *)
Theorem json_body_answers_from_summary
    (B : backend) (sched : list nat) (request_data : ApiServer.InputModel) :
  ApiServer.data request_data <> [] ->
  exists summary : string,
    summarize_from_content_chunks B sched
      (map ApiServer.content (ApiServer.data request_data))
      (ApiServer.query request_data)
    = (Return summary,
       snd (ApiServer.summarize_via_json_body str_http B sched request_data))
    /\ fst (ApiServer.summarize_via_json_body str_http B sched request_data)
       = if startswith "An error occurred" summary
         then ApiServer.Failed 500
                ("An internal server error occurred: "
                 +:+ str_http 500 summary)
         else ApiServer.Responded
                {| ApiServer.jb_input_type := "json_body";
                   ApiServer.jb_query := ApiServer.query request_data;
                   ApiServer.jb_summary := summary |}.
Proof.
  intros Hdata. unfold ApiServer.summarize_via_json_body.
  destruct (map ApiServer.content (ApiServer.data request_data))
    as [|c cs] eqn:Hc.
  { destruct (ApiServer.data request_data); [congruence|discriminate Hc]. }
  rewrite summarize_from_content_chunks_returns.
  eexists. split.
  - destruct (startswith _ _); reflexivity.
  - destruct (startswith _ _); reflexivity.
Qed.

(** X15: the JSON handler never answers with an error status other than
    500, and the detail of every error starts with the internal-error
    prefix. *)
Theorem json_body_errors_are_500
    (B : backend) (sched : list nat) (request_data : ApiServer.InputModel)
    (status_code : nat) (detail : string) :
  fst (ApiServer.summarize_via_json_body str_http B sched request_data)
  = ApiServer.Failed status_code detail ->
  status_code = 500%nat
  /\ startswith "An internal server error occurred: " detail = true.
Proof.
  unfold ApiServer.summarize_via_json_body.
  destruct (map ApiServer.content (ApiServer.data request_data)) as [|c cs].
  - cbn [fst ApiServer.except_internal]. intros [= <- <-].
    split; [reflexivity|].
    apply (startswith_refl_append ApiServer.internal_error_prefix).
  - rewrite summarize_from_content_chunks_returns.
    destruct (startswith _ _); cbn [fst ApiServer.except_internal];
      intros H; [|discriminate H].
    injection H as <- <-. split; [reflexivity|].
    apply (startswith_refl_append ApiServer.internal_error_prefix).
Qed.

(** X16: a failed reduce call reaches the client of the JSON handler as a
    500 whose detail wraps the reduce-failure string. *)
Theorem json_body_reduce_failure_is_500
    (B : backend) (sched : list nat) (request_data : ApiServer.InputModel)
    (batches : list string) (e : exn) :
  ApiServer.data request_data <> [] ->
  group_chunks (map ApiServer.content (ApiServer.data request_data)) 7
  = Return batches ->
  call_error (generate_content B
                (run_reduce_prompt B batches (ApiServer.query request_data)))
  = Some e ->
  fst (ApiServer.summarize_via_json_body str_http B sched request_data)
  = ApiServer.Failed 500
      ("An internal server error occurred: "
       +:+ str_http 500
             ("An error occurred during the Reduce phase: " +:+ exn_str e)).
Proof.
  intros Hdata. rewrite group_chunks_default. intros [= <-] Herr.
  unfold ApiServer.summarize_via_json_body.
  destruct (map ApiServer.content (ApiServer.data request_data))
    as [|c cs] eqn:Hc.
  { destruct (ApiServer.data request_data); [congruence|discriminate Hc]. }
  rewrite summarize_from_content_chunks_returns.
  assert (Hout : reduce_outcome B
                   (run_reduce_prompt B (default_batches (c :: cs))
                      (ApiServer.query request_data))
                 = "An error occurred during the Reduce phase: "
                   +:+ exn_str e).
  { unfold reduce_outcome. unfold call_error in Herr.
    destruct (generate_content B _) as [[[t|e']]|e']; cbn in Herr;
      first [discriminate Herr | injection Herr as ->; reflexivity]. }
  rewrite Hout. reflexivity.
Qed.
(** X17: an upload whose declared content type is not
    [application/json] is refused with a 400 before anything is done:
    nothing is written and no backend call is made. *)
Theorem file_upload_wrong_content_type
    (B : backend) (sched : list nat) (fs : gmap string string)
    (upload : ApiServer.UploadFile) (query : option string) :
  ApiServer.content_type upload <> Some "application/json" ->
  ApiServer.summarize_via_file_upload str_http json_load write_error
    B sched fs upload query
  = (ApiServer.Failed 400 "Uploaded file must be of type application/json",
     fs, []).
Proof.
  intros Htype. unfold ApiServer.summarize_via_file_upload.
  assert (Hno : ApiServer.is_json_upload upload = false).
  { unfold ApiServer.is_json_upload.
    destruct (ApiServer.content_type upload) as [declared|]; [|reflexivity].
    destruct (String.eqb_spec declared "application/json"); congruence. }
  now rewrite Hno.
Qed.

Lemma remove_if_exists_delete (path : string) (fs : gmap string string) :
  ApiServer.remove_if_exists path fs = delete path fs.
Proof.
  unfold ApiServer.remove_if_exists.
  destruct (fs !! path) eqn:Hp; [reflexivity|].
  symmetry. now apply delete_id.
Qed.

(** X18: once the upload of a JSON file has been written to the temporary
    file, handling it leaves no file under the temporary name, whatever
    came after the write (the document was refused, reading it raised, the
    run failed or succeeded), and every other file is as before.  A file
    that was already there under that name, overwritten by the upload, is
    gone too. *)
Theorem file_upload_removes_temp_file
    (B : backend) (sched : list nat) (fs : gmap string string)
    (upload : ApiServer.UploadFile) (query : option string) :
  ApiServer.content_type upload = Some "application/json" ->
  write_error (ApiServer.temp_file_path upload) = None ->
  snd (fst (ApiServer.summarize_via_file_upload str_http json_load
              write_error B sched fs upload query))
  = delete (ApiServer.temp_file_path upload) fs
  /\ snd (fst (ApiServer.summarize_via_file_upload str_http json_load
                 write_error B sched fs upload query))
     !! ApiServer.temp_file_path upload = None
  /\ (forall path : string,
        path <> ApiServer.temp_file_path upload ->
        snd (fst (ApiServer.summarize_via_file_upload str_http json_load
                    write_error B sched fs upload query)) !! path
        = fs !! path).
Proof.
  intros Htype Hwrite.
  assert (Hdisk : snd (fst (ApiServer.summarize_via_file_upload str_http
                              json_load write_error B sched fs upload query))
                  = delete (ApiServer.temp_file_path upload) fs).
  { unfold ApiServer.summarize_via_file_upload, ApiServer.is_json_upload.
    rewrite Htype. rewrite String.eqb_refl. rewrite Hwrite.
    destruct (summarize_from_file _ B sched _ query) as [[summary|e] t].
    - destruct (startswith "Error" summary); cbn [fst snd];
        rewrite remove_if_exists_delete; apply delete_insert_eq.
    - cbn [fst snd]. rewrite remove_if_exists_delete.
      apply delete_insert_eq. }
  rewrite Hdisk. split; [reflexivity|]. split.
  - apply lookup_delete_eq.
  - intros path Hpath. apply lookup_delete_ne. congruence.
Qed.

(** X19: the upload handler tests the summary for the prefix "Error" only.
    The reduce-failure string and the no-content message do not begin with
    it, so both reach the client as a successful response whose summary is
    that message. *)
Theorem file_upload_reports_failure_as_success
    (B : backend) (sched : list nat) (fs : gmap string string)
    (upload : ApiServer.UploadFile) (query : option string)
    (summary detail : string) :
  ApiServer.content_type upload = Some "application/json" ->
  write_error (ApiServer.temp_file_path upload) = None ->
  value (summarize_from_file
           (ApiServer.env_of json_load
              (<[ApiServer.temp_file_path upload := ApiServer.file upload]> fs))
           B sched (ApiServer.temp_file_path upload) query)
  = Return summary ->
  summary = "An error occurred during the Reduce phase: " +:+ detail
  \/ summary = "No 'content' data found in the file." ->
  fst (fst (ApiServer.summarize_via_file_upload str_http json_load
              write_error B sched fs upload query))
  = ApiServer.Responded
      {| ApiServer.fu_input_type := "file_upload";
         ApiServer.fu_filename := ApiServer.filename upload;
         ApiServer.fu_query := query;
         ApiServer.fu_summary := summary |}.
Proof.
  intros Htype Hwrite Hrun Hsummary.
  assert (Hno : startswith "Error" summary = false).
  { destruct Hsummary as [->| ->]; reflexivity. }
  unfold ApiServer.summarize_via_file_upload, ApiServer.is_json_upload.
  rewrite Htype. rewrite String.eqb_refl. rewrite Hwrite.
  destruct (summarize_from_file _ B sched _ query) as [r t].
  unfold value in Hrun. cbn [fst] in Hrun. subst r.
  rewrite Hno. reflexivity.
Qed.

(** X20: an upload whose text is not JSON is answered with a 500 whose
    detail wraps the parse-error message; no backend call is made and the
    temporary file is removed. *)
Theorem file_upload_invalid_json_is_500
    (B : backend) (sched : list nat) (fs : gmap string string)
    (upload : ApiServer.UploadFile) (query : option string) (e : exn) :
  ApiServer.content_type upload = Some "application/json" ->
  write_error (ApiServer.temp_file_path upload) = None ->
  json_load (ApiServer.file upload) = Raise e ->
  exn_cls e = JSONDecodeError ->
  ApiServer.summarize_via_file_upload str_http json_load write_error
    B sched fs upload query
  = (ApiServer.Failed 500
       ("An internal server error occurred: "
        +:+ str_http 500
              ("Error reading or parsing the file: " +:+ exn_str e)),
     delete (ApiServer.temp_file_path upload) fs,
     []).
Proof.
  intros Htype Hwrite Hload Hcls.
  unfold ApiServer.summarize_via_file_upload, ApiServer.is_json_upload.
  rewrite Htype. rewrite String.eqb_refl. rewrite Hwrite.
  rewrite (summarize_from_file_parse_error _ B sched _
             (ApiServer.file upload) query e).
  - change (startswith "Error" (file_error_prefix +:+ exn_str e)) with true.
    cbn iota. rewrite remove_if_exists_delete, delete_insert_eq.
    reflexivity.
  - cbn [open_read ApiServer.env_of]. now rewrite lookup_insert_eq.
  - exact Hload.
  - unfold handled. now rewrite Hcls.
Qed.
End http.

Lemma json_body_empty_data_is_500_witness :
  ApiServer.summarize_via_json_body starlette_str answering_backend []
    empty_request
  = (ApiServer.Failed 500
       ("An internal server error occurred: "
        +:+ "400: No 'content' data found in JSON body"),
     []).
Proof.
  apply (json_body_empty_data_is_500 starlette_str answering_backend []
           empty_request).
  reflexivity.
Defined.

Lemma json_body_answers_from_summary_witness :
  exists summary : string,
    summarize_from_content_chunks answering_backend []
      ["The budget is 5 million."] (Some "What is the budget?")
    = (Return summary,
       snd (ApiServer.summarize_via_json_body starlette_str answering_backend
              [] one_chunk_request))
    /\ fst (ApiServer.summarize_via_json_body starlette_str answering_backend
              [] one_chunk_request)
       = if startswith "An error occurred" summary
         then ApiServer.Failed 500
                ("An internal server error occurred: "
                 +:+ starlette_str 500 summary)
         else ApiServer.Responded
                {| ApiServer.jb_input_type := "json_body";
                   ApiServer.jb_query := Some "What is the budget?";
                   ApiServer.jb_summary := summary |}.
Proof.
  apply (json_body_answers_from_summary starlette_str answering_backend []
           one_chunk_request).
  discriminate.
Defined.

Lemma json_body_errors_are_500_witness :
  500%nat = 500%nat
  /\ startswith "An internal server error occurred: "
       ("An internal server error occurred: "
        +:+ "400: No 'content' data found in JSON body")
     = true.
Proof.
  apply (json_body_errors_are_500 starlette_str answering_backend []
           empty_request 500
           ("An internal server error occurred: "
            +:+ "400: No 'content' data found in JSON body")).
  reflexivity.
Defined.

Lemma json_body_reduce_failure_is_500_witness :
  fst (ApiServer.summarize_via_json_body starlette_str failing_backend []
         one_chunk_request)
  = ApiServer.Failed 500
      ("An internal server error occurred: "
       +:+ starlette_str 500
             ("An error occurred during the Reduce phase: "
              +:+ "503 The service is unavailable")).
Proof.
  apply (json_body_reduce_failure_is_500 starlette_str failing_backend []
           one_chunk_request
           (default_batches ["The budget is 5 million."]) unavailable).
  - discriminate.
  - reflexivity.
  - reflexivity.
Defined.

Lemma file_upload_wrong_content_type_witness :
  ApiServer.summarize_via_file_upload starlette_str strict_json_load
    no_write_error answering_backend [] disk_with_temp text_upload None
  = (ApiServer.Failed 400 "Uploaded file must be of type application/json",
     disk_with_temp, []).
Proof.
  apply (file_upload_wrong_content_type starlette_str strict_json_load
           no_write_error answering_backend [] disk_with_temp text_upload
           None).
  discriminate.
Defined.

Lemma file_upload_removes_temp_file_witness :
  snd (fst (ApiServer.summarize_via_file_upload starlette_str
              strict_json_load no_write_error answering_backend []
              disk_with_temp json_upload None))
  = delete "temp_doc.json" disk_with_temp
  /\ snd (fst (ApiServer.summarize_via_file_upload starlette_str
                 strict_json_load no_write_error answering_backend []
                 disk_with_temp json_upload None)) !! "keep.txt"
     = Some "kept".
Proof.
  destruct (file_upload_removes_temp_file starlette_str strict_json_load
              no_write_error answering_backend [] disk_with_temp json_upload
              None) as (Hdisk & _ & Hother).
  - reflexivity.
  - reflexivity.
  - split; [exact Hdisk|].
    rewrite (Hother "keep.txt"); [reflexivity|discriminate].
Defined.

Lemma file_upload_reports_failure_as_success_witness :
  fst (fst (ApiServer.summarize_via_file_upload starlette_str
              strict_json_load no_write_error failing_backend []
              disk_with_temp json_upload None))
  = ApiServer.Responded
      {| ApiServer.fu_input_type := "file_upload";
         ApiServer.fu_filename := Some "doc.json";
         ApiServer.fu_query := None;
         ApiServer.fu_summary :=
           "An error occurred during the Reduce phase: "
           +:+ "503 The service is unavailable" |}.
Proof.
  apply (file_upload_reports_failure_as_success starlette_str
           strict_json_load no_write_error failing_backend []
           disk_with_temp json_upload None
           ("An error occurred during the Reduce phase: "
            +:+ "503 The service is unavailable")
           "503 The service is unavailable").
  - reflexivity.
  - reflexivity.
  - vm_compute. reflexivity.
  - left. reflexivity.
Defined.

Lemma file_upload_invalid_json_is_500_witness :
  ApiServer.summarize_via_file_upload starlette_str strict_json_load
    no_write_error answering_backend [] disk_with_temp broken_upload None
  = (ApiServer.Failed 500
       ("An internal server error occurred: "
        +:+ starlette_str 500
              ("Error reading or parsing the file: "
               +:+ "Expecting value: line 1 column 1 (char 0)")),
     delete "temp_broken.json" disk_with_temp,
     []).
Proof.
  apply (file_upload_invalid_json_is_500 starlette_str strict_json_load
           no_write_error answering_backend [] disk_with_temp broken_upload
           None
           (Exn JSONDecodeError "Expecting value: line 1 column 1 (char 0)")).
  - reflexivity.
  - reflexivity.
  - reflexivity.
  - reflexivity.
Defined.
